(** * VigilHome: alert de-duplication, smart alerts and behavioural baseline

    A shallow embedding of three cooperating modules of the repository:
    - [alert_deduplication.py]  (classes [AlertDeduplicator] and
                                 [SmartAlertFilter]),
    - [smart_alerts.py]         (class [SmartAlertManager]),
    - [behavioral_analyzer.py]  (class [BehavioralAnalyzer]),
    and of two pieces around them: the behavioural step of
    [VigilHome.process_frame] in [main.py] and [quality_filter.py].

    Conventions of the embedding.
    - A naive [datetime] is the number of microseconds elapsed since
      [datetime.min] (0001-01-01 00:00:00), a [Z].  [datetime.now()] is an
      effect of the source; every operation that reads the clock takes the
      value read as an explicit argument.
    - [timedelta.total_seconds()] is only ever compared with a whole number
      of seconds; the comparison is done on the exact microsecond count.
    - Python dictionaries are stdpp [gmap]s, Python sets are [gset]s.
    - Python floats are modelled by exact rationals ([Q]).
    - Mutable objects are threaded explicitly: every method takes the
      object's state and returns the new state with its result. *)

From Stdlib Require Import Ascii String ZArith QArith Qminmax Reals Qreals Lia Lra.
From stdpp Require Import gmap strings list fin_maps pretty sorting.

Local Open Scope Z_scope.
Set Warnings "-clear-no-such-hyp".

(** ** Clock arithmetic shared by the three modules *)

Module Clock.

(** A naive [datetime]: microseconds since [datetime.min]. *)
Abbreviation datetime := Z (only parsing).

Definition usec_per_second : Z := 1000000.
Definition usec_per_minute : Z := 60 * usec_per_second.
Definition usec_per_hour : Z := 60 * usec_per_minute.
Definition usec_per_day : Z := 24 * usec_per_hour.

(** [datetime.min] *)
Definition datetime_min : datetime := 0.

(** [timedelta(seconds=s)] and [timedelta(days=d)] as microsecond counts. *)
Definition seconds (s : Z) : Z := s * usec_per_second.
Definition days (d : Z) : Z := d * usec_per_day.

(** [(a - b).total_seconds() > s] for an integer [s]. *)
Definition total_seconds_gt (a b : datetime) (s : Z) : bool :=
  seconds s <? a - b.

(** [(a - b).total_seconds() < s] for an integer [s]. *)
Definition total_seconds_lt (a b : datetime) (s : Z) : bool :=
  a - b <? seconds s.

(** [(a - b).days]: timedeltas are normalised with a floored day count. *)
Definition timedelta_days (a b : datetime) : Z := (a - b) / usec_per_day.

(** [t.hour] and [t.weekday()] (Monday is 0; 0001-01-01 is a Monday). *)
Definition hour (t : datetime) : Z := (t / usec_per_hour) mod 24.
Definition weekday (t : datetime) : Z := (t / usec_per_day) mod 7.

(** [t.time()], as microseconds since midnight. *)
Definition time_of_day (t : datetime) : Z := t mod usec_per_day.

(** [time(hour=h, minute=m)] as microseconds since midnight. *)
Definition time_hm (h m : Z) : Z := h * usec_per_hour + m * usec_per_minute.

(** Build a datetime from a day number and a wall-clock time. *)
Definition at_day (d h m s : Z) : datetime :=
  days d + time_hm h m + seconds s.

End Clock.

(** ** alert_deduplication.py *)

Module AlertDedup.
Import Clock.

(** One entry of the [objects] list handed to [should_alert]: a detection
    dictionary of which the code reads the ['class'] field only. *)
Record Detection := {
  det_class : string;
  det_confidence : Q
}.

(** [class DetectionState] *)
Record DetectionState := {
  person_name : string;
  objects : gset string;
  last_seen : datetime;
  alert_count : Z
}.

(** [class AlertDeduplicator] *)
Record AlertDeduplicator := {
  cooldown : Z;
  active_detections : gmap string DetectionState;
  last_alert_time : gmap string datetime
}.

(** [AlertDeduplicator.__init__] *)
Definition init (cooldown_seconds : Z) : AlertDeduplicator :=
  {| cooldown := cooldown_seconds;
     active_detections := ∅;
     last_alert_time := ∅ |}.

Definition default_cooldown : Z := 300.

Definition set_active (d : AlertDeduplicator)
    (m : gmap string DetectionState) : AlertDeduplicator :=
  {| cooldown := cooldown d;
     active_detections := m;
     last_alert_time := last_alert_time d |}.

(** [set(obj['class'] for obj in objects if obj['class'] != 'person')] *)
Definition current_objects_of (objs : list Detection) : gset string :=
  list_to_set
    (det_class <$> filter (λ o, det_class o ≠ "person"%string) objs).

(** [AlertDeduplicator.should_alert]; [current_time] is the value of
    [datetime.now()] read at the top of the method. *)
Definition should_alert (d : AlertDeduplicator) (current_time : datetime)
    (camera person : string) (objs : list Detection)
    : AlertDeduplicator * bool :=
  let current_objects := current_objects_of objs in
  match active_detections d !! camera with
  | Some state =>
      if decide (person_name state = person) then
        let new_objects := current_objects ∖ objects state in
        if decide (new_objects ≠ ∅) then
          (set_active d
             (<[camera := {| person_name := person_name state;
                             objects := current_objects;
                             last_seen := current_time;
                             alert_count := alert_count state |}]>
                (active_detections d)), true)
        else if total_seconds_gt current_time (last_seen state) (cooldown d)
        then
          (set_active d
             (<[camera := {| person_name := person_name state;
                             objects := objects state;
                             last_seen := current_time;
                             alert_count := alert_count state |}]>
                (active_detections d)), true)
        else
          (set_active d
             (<[camera := {| person_name := person_name state;
                             objects := objects state;
                             last_seen := current_time;
                             alert_count := alert_count state |}]>
                (active_detections d)), false)
      else
        (set_active d
           (<[camera := {| person_name := person;
                           objects := current_objects;
                           last_seen := current_time;
                           alert_count := alert_count state + 1 |}]>
              (active_detections d)), true)
  | None =>
      (set_active d
         (<[camera := {| person_name := person;
                         objects := current_objects;
                         last_seen := current_time;
                         alert_count := 1 |}]>
            (active_detections d)), true)
  end.

(** [AlertDeduplicator.mark_left] *)
Definition mark_left (d : AlertDeduplicator) (camera : string)
    : AlertDeduplicator :=
  match active_detections d !! camera with
  | Some _ => set_active d (delete camera (active_detections d))
  | None => d
  end.

(** [AlertDeduplicator.cleanup_old]: the cameras whose state is older than
    [max_age_seconds] are collected first and deleted afterwards. *)
Definition cleanup_old (d : AlertDeduplicator) (current_time : datetime)
    (max_age_seconds : Z) : AlertDeduplicator :=
  let to_remove :=
    (filter (λ item : string * DetectionState,
               total_seconds_gt current_time (last_seen item.2)
                 max_age_seconds = true)
            (map_to_list (active_detections d))).*1 in
  set_active d (foldl (λ m camera, delete camera m)
                      (active_detections d) to_remove).

(** A call on the de-duplicator, with the clock value it reads. *)
Inductive Call :=
| CallShouldAlert (now : datetime) (camera person : string)
    (objs : list Detection)
| CallMarkLeft (camera : string)
| CallCleanupOld (now : datetime) (max_age_seconds : Z).

Definition step (d : AlertDeduplicator) (c : Call) : AlertDeduplicator :=
  match c with
  | CallShouldAlert now camera person objs =>
      (should_alert d now camera person objs).1
  | CallMarkLeft camera => mark_left d camera
  | CallCleanupOld now max_age => cleanup_old d now max_age
  end.

Definition run (d : AlertDeduplicator) (cs : list Call)
    : AlertDeduplicator :=
  foldl step d cs.

(** The cameras named by the [should_alert] calls of a history. *)
Fixpoint observed_cameras (cs : list Call) : gset string :=
  match cs with
  | [] => ∅
  | CallShouldAlert _ camera _ _ :: cs' => {[camera]} ∪ observed_cameras cs'
  | _ :: cs' => observed_cameras cs'
  end.

(** One observation of a fixed subject at a fixed camera. *)
Record Observation := {
  obs_time : datetime;
  obs_objects : list Detection
}.

(** Feed a sequence of observations of [person] at [camera] to
    [should_alert], collecting the answers. *)
Fixpoint observe_all (d : AlertDeduplicator) (camera person : string)
    (os : list Observation) : AlertDeduplicator * list bool :=
  match os with
  | [] => (d, [])
  | o :: os' =>
      let '(d1, b) := should_alert d (obs_time o) camera person
                        (obs_objects o) in
      let '(d2, bs) := observe_all d1 camera person os' in
      (d2, b :: bs)
  end.

(** Every observation after [prev] lies within [cd] seconds of its
    predecessor and shows only object classes of [tracked]. *)
Fixpoint quiet_run (cd : Z) (prev : datetime) (tracked : gset string)
    (os : list Observation) : Prop :=
  match os with
  | [] => True
  | o :: os' =>
      obs_time o - prev ≤ seconds cd
      ∧ current_objects_of (obs_objects o) ⊆ tracked
      ∧ quiet_run cd (obs_time o) tracked os'
  end.

(** The state of a camera at which [person] is tracked with the object
    set [tracked], last seen at [prev]. *)
Definition tracking (d : AlertDeduplicator) (camera person : string)
    (tracked : gset string) (prev : datetime) : Prop :=
  ∃ st, active_detections d !! camera = Some st
        ∧ person_name st = person
        ∧ objects st = tracked
        ∧ last_seen st = prev.

(** Sample detections. *)
Definition person_det : Detection :=
  {| det_class := "person"; det_confidence := 0.9%Q |}.
Definition dog_det : Detection :=
  {| det_class := "dog"; det_confidence := 0.8%Q |}.

(** Follow-up sightings at 100 s and 350 s. *)
Definition later_sightings : list Observation :=
  [ {| obs_time := seconds 100; obs_objects := [dog_det; person_det] |};
    {| obs_time := seconds 350; obs_objects := [person_det] |} ].

(** The live states that [active_detections.items()] lists for a
    camera. *)
Definition states_at (d : AlertDeduplicator) (camera : string)
    : list (string * DetectionState) :=
  filter (λ item : string * DetectionState, item.1 = camera)
         (map_to_list (active_detections d)).

End AlertDedup.

(** ** String helpers used by smart_alerts.py and behavioral_analyzer.py *)

Module Str.
Local Open Scope string_scope.

(** [needle in hay] on Python strings. *)
Fixpoint contains (needle hay : string) : bool :=
  String.prefix needle hay
  || match hay with
     | EmptyString => false
     | String _ hay' => contains needle hay'
     end.

(** [c.lower()] on one ASCII character (other bytes are left alone). *)
Definition lower_ascii (c : ascii) : ascii :=
  let n := nat_of_ascii c in
  if (65 <=? n)%nat && (n <=? 90)%nat then ascii_of_nat (n + 32) else c.

(** [s.lower()] *)
Fixpoint lower (s : string) : string :=
  match s with
  | EmptyString => EmptyString
  | String c s' => String (lower_ascii c) (lower s')
  end.

(** The value of a decimal digit. *)
Definition digit_of (c : ascii) : option Z :=
  let n := nat_of_ascii c in
  if (48 <=? n)%nat && (n <=? 57)%nat then Some (Z.of_nat (n - 48))
  else None.

(** One or two decimal digits, as [%H] and [%M] of [strptime] accept. *)
Definition parse_1_2_digits (s : string) : option Z :=
  match s with
  | String a EmptyString => digit_of a
  | String a (String b EmptyString) =>
      match digit_of a, digit_of b with
      | Some x, Some y => Some (10 * x + y)%Z
      | _, _ => None
      end
  | _ => None
  end.

(** Split at the first occurrence of [sep]. *)
Fixpoint split_first (sep : ascii) (s : string) : option (string * string) :=
  match s with
  | EmptyString => None
  | String c s' =>
      if decide (c = sep) then Some (EmptyString, s')
      else match split_first sep s' with
           | Some (l, r) => Some (String c l, r)
           | None => None
           end
  end.

(** [datetime.strptime(s, "%H:%M").time()], as microseconds since
    midnight; [None] stands for the [ValueError] of a string that does not
    match the format. *)
Definition strptime_HM (s : string) : option Z :=
  match split_first ":" s with
  | Some (hs, ms) =>
      match parse_1_2_digits hs, parse_1_2_digits ms with
      | Some h, Some m =>
          if ((h <=? 23) && (m <=? 59))%Z then Some (Clock.time_hm h m)
          else None
      | _, _ => None
      end
  | None => None
  end.

(** Whether a string holds a colon. *)
Fixpoint has_colon (s : string) : bool :=
  match s with
  | EmptyString => false
  | String c s' => bool_decide (c = ":"%char) || has_colon s'
  end.

End Str.

(** ** smart_alerts.py *)

Module SmartAlerts.
Import Clock.
Local Open Scope string_scope.
Local Open Scope Z_scope.

(** The [quiet_hours] section of the configuration. *)
Record QuietHours := {
  qh_enabled : bool;           (* quiet.get('enabled', False) *)
  qh_start : string;           (* quiet['start'] *)
  qh_end : string              (* quiet['end'] *)
}.

(** The part of the YAML configuration that the manager reads. *)
Record Config := {
  (* config.get('smart_filtering', {}).get('min_time_between_alerts') *)
  min_time_between_alerts : option Z;
  (* config.get('quiet_hours'); an absent section is the empty dict *)
  quiet_hours : option QuietHours
}.

(** An entry of [daily_images]. *)
Record DigestImage := {
  img_path : string;
  img_camera : string;
  img_person : string;
  img_description : string;
  img_time : datetime
}.

(** The text alerts of [process_detection].  The wall-clock stamp that
    [_now()] renders as HH:MM is kept as the datetime it is rendered
    from. *)
Inductive Alert :=
| NewPersonAlert (camera person : string) (at_time : datetime)
    (* "{emoji} {Person} chegou à {camera} ({HH:MM})" *)
| PersonLeftAlert (camera person : string) (at_time : datetime)
    (* "👋 {Person} saiu de {camera} ({HH:MM})" *)
| UnknownPersonAlert (camera : string) (at_time : datetime).
    (* "⚠️ Pessoa desconhecida na {camera} ({HH:MM})" *)

(** [class SmartAlertManager] *)
Record SmartAlertManager := {
  config : Config;
  last_alerts : gmap string datetime;
  active_persons : gmap string datetime;
  daily_images : list DigestImage
}.

(** [SmartAlertManager.__init__] *)
Definition init (cfg : Config) : SmartAlertManager :=
  {| config := cfg; last_alerts := ∅; active_persons := ∅;
     daily_images := [] |}.

(** [f"{camera}:{person}"] *)
Definition key_of (camera person : string) : string :=
  camera ++ ":" ++ person.

(** [_is_new_person] *)
Definition _is_new_person (m : SmartAlertManager) (now : datetime)
    (camera person : string) : bool :=
  let key := key_of camera person in
  match active_persons m !! key with
  | None =>
      match last_alerts m !! key with
      | Some last_seen =>
          let cooldown := default 300 (min_time_between_alerts (config m)) in
          if total_seconds_lt now last_seen cooldown then false else true
      | None => true
      end
  | Some _ => false
  end.

(** [_has_person_left] *)
Definition _has_person_left (m : SmartAlertManager) (now : datetime)
    (camera person : string) : bool :=
  let key := key_of camera person in
  match active_persons m !! key with
  | Some last_seen =>
      if total_seconds_gt now last_seen 120 then true else false
  | None => false
  end.

(** [_track_person] *)
Definition _track_person (m : SmartAlertManager) (now : datetime)
    (camera person : string) : SmartAlertManager :=
  let key := key_of camera person in
  {| config := config m;
     last_alerts := <[key := now]> (last_alerts m);
     active_persons := <[key := now]> (active_persons m);
     daily_images := daily_images m |}.

(** [_remove_person] *)
Definition _remove_person (m : SmartAlertManager) (camera person : string)
    : SmartAlertManager :=
  let key := key_of camera person in
  match active_persons m !! key with
  | Some _ =>
      {| config := config m;
         last_alerts := last_alerts m;
         active_persons := delete key (active_persons m);
         daily_images := daily_images m |}
  | None => m
  end.

(** [_should_alert_unknown] *)
Definition _should_alert_unknown (m : SmartAlertManager) (now : datetime)
    : bool :=
  let last_unknown := default datetime_min (last_alerts m !! "unknown") in
  total_seconds_gt now last_unknown 300.

(** [_is_quiet_hours]; [None] is the exception of a malformed time. *)
Definition _is_quiet_hours (m : SmartAlertManager) (now : datetime)
    : option bool :=
  match quiet_hours (config m) with
  | None => Some false
  | Some quiet =>
      if negb (qh_enabled quiet) then Some false
      else
        start ← Str.strptime_HM (qh_start quiet);
        end_ ← Str.strptime_HM (qh_end quiet);
        let current_time := time_of_day now in
        if start <? end_ then
          Some ((start <=? current_time) && (current_time <=? end_))
        else
          Some ((start <=? current_time) || (current_time <=? end_))
  end.

Definition emergencies : list string :=
  ["unknown"; "intrusion"; "break"; "glass"; "anomaly"].

(** [_is_emergency] *)
Definition _is_emergency (person description : string) : bool :=
  let desc_lower := Str.lower description in
  existsb (λ e, Str.contains e desc_lower) emergencies.

(** [_is_interesting_for_training] *)
Definition _is_interesting_for_training (m : SmartAlertManager)
    (camera person : string) (objs : list AlertDedup.Detection) : bool :=
  if (20 <=? length (daily_images m))%nat then false else true.

(** The tail of [process_detection]: the unknown-person alert and the
    collection of the image for the daily digest. *)
Definition after_presence (m : SmartAlertManager) (now : datetime)
    (camera person : string) (objs : list AlertDedup.Detection)
    (description image_path : string)
    : SmartAlertManager * option Alert :=
  if (bool_decide (person = "unknown")
      || bool_decide (person = "desconhecido"))
     && _should_alert_unknown m now
  then (m, Some (UnknownPersonAlert camera now))
  else if _is_interesting_for_training m camera person objs then
    ({| config := config m;
        last_alerts := last_alerts m;
        active_persons := active_persons m;
        daily_images :=
          daily_images m ++
            [{| img_path := image_path; img_camera := camera;
                img_person := person; img_description := description;
                img_time := now |}] |}, None)
  else (m, None).

(** [process_detection].  The result is the new state of the manager and
    the alert that was handed to [_send_text_alert] and returned, if any;
    the outer [None] is an exception raised by [_is_quiet_hours].  All
    clock reads of one call see the same instant [now]. *)
Definition process_detection (m : SmartAlertManager) (now : datetime)
    (camera person : string) (objs : list AlertDedup.Detection)
    (description : string) (confidence : Q) (image_path : string)
    : option (SmartAlertManager * option Alert) :=
  quiet ← _is_quiet_hours m now;
  if quiet && negb (_is_emergency person description) then Some (m, None)
  else if _is_new_person m now camera person then
    Some (_track_person m now camera person,
          Some (NewPersonAlert camera person now))
  else if _has_person_left m now camera person then
    Some (_remove_person m camera person,
          Some (PersonLeftAlert camera person now))
  else Some (after_presence m now camera person objs description image_path).

(** [cleanup_old_tracking] *)
Definition cleanup_old_tracking (m : SmartAlertManager) (now : datetime)
    : SmartAlertManager :=
  let to_remove :=
    (filter (λ item : string * datetime,
               total_seconds_gt now item.2 600 = true)
            (map_to_list (active_persons m))).*1 in
  {| config := config m;
     last_alerts := last_alerts m;
     active_persons :=
       foldl (λ a key, delete key a) (active_persons m) to_remove;
     daily_images := daily_images m |}.

(** One detection handed to [process_detection]. *)
Record DetectionCall := {
  dc_now : datetime;
  dc_camera : string;
  dc_person : string;
  dc_objects : list AlertDedup.Detection;
  dc_description : string;
  dc_confidence : Q;
  dc_image_path : string
}.

Definition process_call (m : SmartAlertManager) (c : DetectionCall)
    : option (SmartAlertManager * option Alert) :=
  process_detection m (dc_now c) (dc_camera c) (dc_person c)
    (dc_objects c) (dc_description c) (dc_confidence c) (dc_image_path c).

(** Run a sequence of detections, collecting the alert of each call. *)
Fixpoint process_all (m : SmartAlertManager) (cs : list DetectionCall)
    : option (SmartAlertManager * list (option Alert)) :=
  match cs with
  | [] => Some (m, [])
  | c :: cs' =>
      '(m1, a) ← process_call m c;
      '(m2, rest) ← process_all m1 cs';
      Some (m2, a :: rest)
  end.

(** *** Sample configurations and detections *)

(** Quiet hours from 23:00 to 07:00, as in the class docstring. *)
Definition night_config : Config :=
  {| min_time_between_alerts := None;
     quiet_hours := Some {| qh_enabled := true;
                            qh_start := "23:00";
                            qh_end := "07:00" |} |}.

(** No quiet hours and the default cooldown. *)
Definition plain_config : Config :=
  {| min_time_between_alerts := None; quiet_hours := None |}.

Definition detection_at (now : datetime) (camera person description : string)
    : DetectionCall :=
  {| dc_now := now; dc_camera := camera; dc_person := person;
     dc_objects := [AlertDedup.person_det];
     dc_description := description; dc_confidence := 0.9%Q;
     dc_image_path := "frame.jpg" |}.

(** Some day in the twenty-first century. *)
Definition some_day : Z := 738000.

(** An unknown person seen at 10:00:00, 10:00:10 and 10:00:20. *)
Definition unknown_burst : list DetectionCall :=
  [ detection_at (at_day some_day 10 0 0) "sala" "unknown" "a person";
    detection_at (at_day some_day 10 0 10) "sala" "unknown" "a person";
    detection_at (at_day some_day 10 0 20) "sala" "unknown" "a person" ].


End SmartAlerts.

(** ** behavioral_analyzer.py *)

Module Behavioral.
Import Clock.
Local Open Scope string_scope.
Local Open Scope Z_scope.

(** *** Rational arithmetic standing for the float operations *)

Definition Qlt_bool (x y : Q) : bool := negb (Qle_bool y x).

(** Python's [min(x, y)]: the second argument wins only if strictly
    smaller. *)
Definition py_min (x y : Q) : Q := if Qlt_bool y x then y else x.

Definition Qsum (l : list Q) : Q := foldr Qplus 0%Q l.

(** [np.mean] of a non-empty list. *)
Definition Qmean (l : list Q) : Q :=
  (Qsum l / inject_Z (Z.of_nat (length l)))%Q.

(** [np.min] of a non-empty array (0 stands in for the empty case, which
    the callers exclude). *)
Definition Qminimum (l : list Q) : Q :=
  match l with
  | [] => 0%Q
  | x :: l' => foldl py_min x l'
  end.

(** *** Data classes *)

Abbreviation Position := (Q * Q)%type (only parsing).

(** [class MovementEvent] *)
Record MovementEvent := {
  timestamp : datetime;
  camera : string;
  person_id : option string;
  position : Position;
  confidence : Q
}.

(** [class BehavioralPattern] *)
Record BehavioralPattern := {
  bp_person_id : option string;
  bp_camera : string;
  hour_of_day : Z;
  day_of_week : Z;
  avg_duration_minutes : Q;
  frequency_score : Q;
  typical_positions : list Position
}.

(** [class BehavioralAnalyzer]; [events_file] and [patterns_file] are the
    contents of the two files of the data directory. *)
Record BehavioralAnalyzer := {
  min_baseline_days : Z;
  events : list MovementEvent;
  patterns : gmap string BehavioralPattern;
  events_file : list MovementEvent;
  patterns_file : option (gmap string BehavioralPattern)
}.

(** [BehavioralAnalyzer.__init__] followed by [_load_data]. *)
Definition init (min_days : Z) (stored_events : list MovementEvent)
    (stored_patterns : option (gmap string BehavioralPattern))
    : BehavioralAnalyzer :=
  {| min_baseline_days := min_days;
     events := stored_events;
     patterns := default ∅ stored_patterns;
     events_file := stored_events;
     patterns_file := stored_patterns |}.

Definition default_min_baseline_days : Z := 7.

(** *** record_movement *)

(** [None] is the [IndexError] of a bounding box with fewer than four
    coordinates. *)
Definition record_movement (a : BehavioralAnalyzer) (now : datetime)
    (cam : string) (bbox : list Q) (conf : Q) (pid : option string)
    (ts : option datetime) : option (BehavioralAnalyzer * MovementEvent) :=
  let ts := default now ts in
  x1 ← bbox !! 0%nat;
  x2 ← bbox !! 2%nat;
  y1 ← bbox !! 1%nat;
  y2 ← bbox !! 3%nat;
  let x_center := ((x1 + x2) / 2)%Q in
  let y_center := ((y1 + y2) / 2)%Q in
  let event := {| timestamp := ts; camera := cam; person_id := pid;
                  position := (x_center, y_center); confidence := conf |} in
  Some ({| min_baseline_days := min_baseline_days a;
           events := events a ++ [event];
           patterns := patterns a;
           events_file := events_file a ++ [event];
           patterns_file := patterns_file a |}, event).

(** *** build_baseline *)

(** [e.person_id or "unknown"] *)
Definition person_or_unknown (p : option string) : string :=
  match p with
  | Some s => if decide (s = "") then "unknown" else s
  | None => "unknown"
  end.

(** A row of the data frame. *)
Record Row := {
  row_timestamp : datetime;
  row_camera : string;
  row_person_id : string;
  row_hour : Z;
  row_day_of_week : Z;
  row_x : Q;
  row_y : Q
}.

Definition row_of (e : MovementEvent) : Row :=
  {| row_timestamp := timestamp e;
     row_camera := camera e;
     row_person_id := person_or_unknown (person_id e);
     row_hour := hour (timestamp e);
     row_day_of_week := weekday (timestamp e);
     row_x := (position e).1;
     row_y := (position e).2 |}.

(** An entry of the per-group occurrence lists. *)
Record Occurrence := {
  occ_timestamp : datetime;
  occ_position : Position
}.

(** A [defaultdict] in insertion order: [d[k] = f(d[k])], where a missing
    key is first created with [dflt]. *)
Fixpoint alist_upd {V : Type} (k : string) (dflt : V) (f : V → V)
    (d : list (string * V)) : list (string * V) :=
  match d with
  | [] => [(k, f dflt)]
  | (k', v) :: d' =>
      if decide (k' = k) then (k', f v) :: d'
      else (k', v) :: alist_upd k dflt f d'
  end.

Abbreviation Groups :=
  (list (string * list (string * list Occurrence))) (only parsing).

(** [f"{row['camera']}_{row['hour']}_{row['day_of_week']}"] *)
Definition group_key (r : Row) : string :=
  row_camera r ++ "_" ++ pretty (row_hour r) ++ "_"
    ++ pretty (row_day_of_week r).

(** [patterns[key][row['person_id']].append({...})] *)
Definition group_insert (g : Groups) (r : Row) : Groups :=
  alist_upd (group_key r) []
    (alist_upd (row_person_id r) []
       (λ l : list Occurrence,
          (l ++ [{| occ_timestamp := row_timestamp r;
                    occ_position := (row_x r, row_y r) |}])%list))
    g.

Definition group_rows (rows : list Row) : Groups :=
  foldl group_insert [] rows.

(** Split at the last occurrence of [sep]. *)
Fixpoint rsplit_last (sep : ascii) (s : string) : option (string * string) :=
  match s with
  | EmptyString => None
  | String c s' =>
      match rsplit_last sep s' with
      | Some (l, r) => Some (String c l, r)
      | None => if decide (c = sep) then Some (EmptyString, s') else None
      end
  end.

(** [a, b, c = s.rsplit(sep, 2)]; [None] is the [ValueError] of an
    unpacking with fewer than three parts. *)
Definition rsplit2 (sep : ascii) (s : string)
    : option (string * string * string) :=
  '(rest, c) ← rsplit_last sep s;
  '(a, b) ← rsplit_last sep rest;
  Some (a, b, c).

(** [int(s)] on a string of decimal digits. *)
Fixpoint int_digits (acc : Z) (s : string) : option Z :=
  match s with
  | EmptyString => Some acc
  | String c s' => d ← Str.digit_of c; int_digits (10 * acc + d) s'
  end.

Definition int_of_string (s : string) : option Z :=
  match s with
  | EmptyString => None
  | _ => int_digits 0 s
  end.

(** The deltas, in minutes, between consecutive sorted timestamps that
    are less than 30 minutes apart. *)
Fixpoint consecutive_durations (prev : datetime) (ts : list datetime)
    : list Q :=
  match ts with
  | [] => []
  | t :: ts' =>
      let duration := (inject_Z (t - prev) / inject_Z usec_per_minute)%Q in
      if Qlt_bool duration 30 then duration :: consecutive_durations t ts'
      else consecutive_durations t ts'
  end.

Definition avg_duration_of (occs : list Occurrence) : Q :=
  let timestamps := merge_sort Z.le (occ_timestamp <$> occs) in
  let durations :=
    match timestamps with
    | [] => []
    | t0 :: ts => consecutive_durations t0 ts
    end in
  match durations with
  | [] => 0%Q
  | _ => Qmean durations
  end.

(** [(max(stamps) - min(stamps)).days] for a list of timestamps (0 stands
    in for the empty list, which the callers exclude). *)
Definition span_days (stamps : list datetime) : Z :=
  match stamps with
  | [] => 0
  | t :: ts => timedelta_days (foldl Z.max t ts) (foldl Z.min t ts)
  end.

(** [(df['timestamp'].max() - df['timestamp'].min()).days or 1] *)
Definition total_days_of (rows : list Row) : Z :=
  let d := span_days (row_timestamp <$> rows) in
  if d =? 0 then 1 else d.

(** [min(len(occurrences) / total_days / 10, 1.0)] *)
Definition frequency_score_of (occurrences : nat) (total_days : Z) : Q :=
  let frequency :=
    (inject_Z (Z.of_nat occurrences) / inject_Z total_days)%Q in
  py_min (frequency / 10)%Q 1%Q.

(** [f"{person_id}_{camera}_{hour}_{dow}"] *)
Definition pattern_key (pid cam hr dow : string) : string :=
  pid ++ "_" ++ cam ++ "_" ++ hr ++ "_" ++ dow.

(** The body of the inner loop for a group of at least two occurrences. *)
Definition make_pattern (total_days : Z) (cam hr dow pid : string)
    (occs : list Occurrence) : option (string * BehavioralPattern) :=
  h ← int_of_string hr;
  d ← int_of_string dow;
  Some (pattern_key pid cam hr dow,
        {| bp_person_id := if decide (pid ≠ "unknown") then Some pid
                           else None;
           bp_camera := cam;
           hour_of_day := h;
           day_of_week := d;
           avg_duration_minutes := avg_duration_of occs;
           frequency_score := frequency_score_of (length occs) total_days;
           typical_positions := occ_position <$> take 10 occs |}).

(** [for person_id, occurrences in person_data.items(): ...] *)
Fixpoint add_person_patterns (total_days : Z) (cam hr dow : string)
    (person_data : list (string * list Occurrence))
    (acc : gmap string BehavioralPattern)
    : option (gmap string BehavioralPattern) :=
  match person_data with
  | [] => Some acc
  | (pid, occs) :: rest =>
      if (length occs <? 2)%nat then
        add_person_patterns total_days cam hr dow rest acc
      else
        '(k, p) ← make_pattern total_days cam hr dow pid occs;
        add_person_patterns total_days cam hr dow rest (<[k := p]> acc)
  end.

(** [for key, person_data in patterns.items(): ...] *)
Fixpoint add_group_patterns (total_days : Z) (g : Groups)
    (acc : gmap string BehavioralPattern)
    : option (gmap string BehavioralPattern) :=
  match g with
  | [] => Some acc
  | (key, person_data) :: rest =>
      '(cam, hr, dow) ← rsplit2 "_" key;
      acc' ← add_person_patterns total_days cam hr dow person_data acc;
      add_group_patterns total_days rest acc'
  end.

(** The pattern map computed from the events of the window; it starts
    from the empty dictionary ([self.patterns = {}]). *)
Definition compute_patterns (window : list MovementEvent)
    : option (gmap string BehavioralPattern) :=
  let rows := row_of <$> window in
  add_group_patterns (total_days_of rows) (group_rows rows) ∅.

(** [cutoff = datetime.now() - timedelta(days=days) if days else None]
    followed by the filter of the events. *)
Definition window_of (evs : list MovementEvent) (now : datetime)
    (days_arg : option Z) : list MovementEvent :=
  match days_arg with
  | Some d =>
      if d =? 0 then evs
      else filter (λ e, (now - days d ≤ timestamp e)%Z) evs
  | None => evs
  end.

(** The fields of the summary that are plain counts and dates (the three
    pandas group-by tables of the source are left out). *)
Record Summary := {
  total_events_analyzed : nat;
  patterns_created : nat;
  date_range_start : datetime;
  date_range_end : datetime
}.

(** [build_baseline]; the inner [None] is the empty summary [{}] of the
    two early returns, the outer [None] an exception. *)
Definition build_baseline (a : BehavioralAnalyzer) (now : datetime)
    (days_arg : option Z) : option (BehavioralAnalyzer * option Summary) :=
  match events a with
  | [] => Some (a, None)
  | _ =>
      let window := window_of (events a) now days_arg in
      match window with
      | [] => Some (a, None)
      | e0 :: es =>
          new_patterns ← compute_patterns window;
          let stamps := timestamp <$> es in
          Some ({| min_baseline_days := min_baseline_days a;
                   events := events a;
                   patterns := new_patterns;
                   events_file := events_file a;
                   patterns_file := Some new_patterns |},
                Some {| total_events_analyzed := length window;
                        patterns_created := size new_patterns;
                        date_range_start := foldl Z.min (timestamp e0) stamps;
                        date_range_end := foldl Z.max (timestamp e0) stamps |})
      end
  end.

(** *** detect_anomaly *)

Inductive AnomalyType :=
| unknown_person
| unusual_time_location
| unusual_position.

Inductive Severity := low | medium.

(** The anomaly dictionary.  [np.linalg.norm] has no rational value, so
    the model keeps the square of every distance: the minimum of the
    squares is the square of the minimum, and the test
    [min_distance > 0.3] is the test of the squares. *)
Record Anomaly := {
  type : AnomalyType;
  severity : Severity;
  message : string;
  event : MovementEvent;
  typical_locations : option (gset string);
  distance_from_typical_sq : option Q
}.

Definition sq_distance (p q : Position) : Q :=
  ((p.1 - q.1) * (p.1 - q.1) + (p.2 - q.2) * (p.2 - q.2))%Q.

Definition position_threshold : Q := 3 # 10.

(** [f"{person_id}_{event.camera}_{hour}_{weekday}"] *)
Definition event_key (e : MovementEvent) : string :=
  pattern_key (person_or_unknown (person_id e)) (camera e)
    (pretty (hour (timestamp e))) (pretty (weekday (timestamp e))).

(** [[p for p in self.patterns.values() if p.person_id == event.person_id]] *)
Definition person_patterns_of (m : gmap string BehavioralPattern)
    (e : MovementEvent) : list BehavioralPattern :=
  filter (λ p, bp_person_id p = person_id e) (map_to_list m).*2.

Definition detect_anomaly (a : BehavioralAnalyzer) (e : MovementEvent)
    : option Anomaly :=
  if decide (patterns a = ∅) then None
  else
    let pid := person_or_unknown (person_id e) in
    match patterns a !! event_key e with
    | None =>
        let person_patterns := person_patterns_of (patterns a) e in
        match person_patterns with
        | [] =>
            Some {| type := unknown_person;
                    severity := low;
                    message := "New person detected in " ++ camera e;
                    event := e;
                    typical_locations := None;
                    distance_from_typical_sq := None |}
        | _ =>
            Some {| type := unusual_time_location;
                    severity := medium;
                    message := pid ++ " in " ++ camera e
                                 ++ " at unusual time";
                    event := e;
                    typical_locations :=
                      Some (list_to_set (bp_camera <$> person_patterns));
                    distance_from_typical_sq := None |}
        end
    | Some pattern =>
        match typical_positions pattern with
        | [] => None
        | _ =>
            let distances_sq :=
              (λ q, sq_distance q (position e))
                <$> typical_positions pattern in
            let min_distance_sq := Qminimum distances_sq in
            if Qlt_bool (position_threshold * position_threshold)
                        min_distance_sq
            then
              Some {| type := unusual_position;
                      severity := low;
                      message := "Unusual position in " ++ camera e;
                      event := e;
                      typical_locations := None;
                      distance_from_typical_sq := Some min_distance_sq |}
            else None
        end
    end.

(** *** has_sufficient_baseline *)

Definition has_sufficient_baseline (a : BehavioralAnalyzer) : bool :=
  match events a, last (events a) with
  | e_first :: _, Some e_last =>
      min_baseline_days a
        <=? timedelta_days (timestamp e_last) (timestamp e_first)
  | _, _ => false
  end.

(** *** Notions used to state the properties *)

(** [d.get(k)] on an insertion-ordered dictionary. *)
Fixpoint alookup {V : Type} (k : string) (d : list (string * V))
    : option V :=
  match d with
  | [] => None
  | (k', v) :: d' => if decide (k' = k) then Some v else alookup k d'
  end.

Definition occurrence_of (r : Row) : Occurrence :=
  {| occ_timestamp := row_timestamp r;
     occ_position := (row_x r, row_y r) |}.

(** The occurrences of the rows of one group, in row order. *)
Definition occurrences_in (rows : list Row) (key pid : string)
    : list Occurrence :=
  occurrence_of
    <$> filter (λ r, group_key r = key ∧ row_person_id r = pid) rows.




(** *** Sample data *)

Definition some_day : Z := 738000.

Definition sighting (day hr minute : Z) (pid : option string)
    (cam : string) (x y : Q) : MovementEvent :=
  {| timestamp := at_day day hr minute 0; camera := cam;
     person_id := pid; position := (x, y); confidence := 0.9%Q |}.

(** A log whose first entry is eight days younger than its second. *)
Definition out_of_order_log : list MovementEvent :=
  [ sighting (some_day + 8) 9 0 (Some "A") "hall" 0.5 0.5;
    sighting some_day 9 0 (Some "A") "hall" 0.5 0.5 ].

(** The out-of-order log as [record_movement] builds it from an empty
    analyzer, the timestamps being passed explicitly. *)
Definition out_of_order_analyzer : option BehavioralAnalyzer :=
  let a0 := init default_min_baseline_days [] None in
  let now := at_day (some_day + 9) 12 0 0 in
  let bbox := [0.4%Q; 0.4%Q; 0.6%Q; 0.6%Q] in
  '(a1, _) ← record_movement a0 now "hall" bbox 0.9%Q (Some "A")
               (Some (at_day (some_day + 8) 9 0 0));
  '(a2, _) ← record_movement a1 now "hall" bbox 0.9%Q (Some "A")
               (Some (at_day some_day 9 0 0));
  Some a2.

(** A pattern of subject A at the hall on the weekday of [some_day] at
    nine, with one typical position, as loaded from the pattern file. *)
Definition hall_pattern : BehavioralPattern :=
  {| bp_person_id := Some "A";
     bp_camera := "hall";
     hour_of_day := 9;
     day_of_week := 4;
     avg_duration_minutes := 0;
     frequency_score := 1 # 5;
     typical_positions := [(0.5%Q, 0.5%Q)] |}.

Definition hall_analyzer : BehavioralAnalyzer :=
  init default_min_baseline_days []
    (Some {[ "A_hall_9_4" := hall_pattern ]}).

(** [patterns[key].get(pid)] on the two-level dictionary of the groups. *)
Definition glookup (g : Groups) (key pid : string)
    : option (list Occurrence) :=
  pd ← alookup key g; alookup pid pd.

(** Two sightings of A at the hall, ten minutes apart. *)
Definition two_visits : list MovementEvent :=
  [ sighting some_day 9 0 (Some "A") "hall" 0.5 0.5;
    sighting some_day 9 10 (Some "A") "hall" 0.5 0.5 ].


(** The events of a window that fall into the bucket of camera [cam],
    hour [hr] and weekday [dow] for the subject label [pid], in log
    order. *)
Definition bucket_of (window : list MovementEvent) (cam : string)
    (hr dow : Z) (pid : string) : list MovementEvent :=
  filter (λ e, camera e = cam ∧ hour (timestamp e) = hr
               ∧ weekday (timestamp e) = dow
               ∧ person_or_unknown (person_id e) = pid) window.

(** The pattern that a build over [two_visits] stores. *)
Definition hall_pattern_built : BehavioralPattern :=
  {| bp_person_id := Some "A";
     bp_camera := "hall";
     hour_of_day := 9;
     day_of_week := 4;
     avg_duration_minutes := 600000000 # 60000000;
     frequency_score := 0.2;
     typical_positions := [(0.5%Q, 0.5%Q); (0.5%Q, 0.5%Q)] |}.

(** Two sightings without a subject, as the callers record them, and the
    pattern that a build over them stores. *)
Definition anonymous_visits : list MovementEvent :=
  [ sighting some_day 9 0 None "hall" 0.5 0.5;
    sighting some_day 9 10 None "hall" 0.5 0.5 ].

Definition anonymous_pattern : BehavioralPattern :=
  {| bp_person_id := None;
     bp_camera := "hall";
     hour_of_day := 9;
     day_of_week := 4;
     avg_duration_minutes := 600000000 # 60000000;
     frequency_score := 0.2;
     typical_positions := [(0.5%Q, 0.5%Q); (0.5%Q, 0.5%Q)] |}.

Definition anonymous_analyzer : BehavioralAnalyzer :=
  init default_min_baseline_days anonymous_visits
    (Some {[ "unknown_hall_9_4" := anonymous_pattern ]}).

(** One call of [record_movement], with the clock value it would read. *)
Record RecordCall := {
  rc_now : datetime;
  rc_camera : string;
  rc_bbox : list Q;
  rc_confidence : Q;
  rc_person_id : option string;
  rc_timestamp : option datetime
}.

(** The timestamp that the recorded event gets. *)
Definition rc_stamp (c : RecordCall) : datetime :=
  default (rc_now c) (rc_timestamp c).

(** A sequence of [record_movement] calls; an exception ends it. *)
Fixpoint record_all (a : BehavioralAnalyzer) (cs : list RecordCall)
    : option BehavioralAnalyzer :=
  match cs with
  | [] => Some a
  | c :: cs' =>
      '(a1, _) ← record_movement a (rc_now c) (rc_camera c) (rc_bbox c)
                   (rc_confidence c) (rc_person_id c) (rc_timestamp c);
      record_all a1 cs'
  end.

(** Two movements recorded as they happen, eight days apart, and the
    analyzer that holds them. *)
Definition ordered_calls : list RecordCall :=
  [ {| rc_now := at_day some_day 9 0 0; rc_camera := "hall";
       rc_bbox := [0.4%Q; 0.4%Q; 0.6%Q; 0.6%Q];
       rc_confidence := 0.9%Q; rc_person_id := None;
       rc_timestamp := None |};
    {| rc_now := at_day (some_day + 8) 9 0 0; rc_camera := "hall";
       rc_bbox := [0.4%Q; 0.4%Q; 0.6%Q; 0.6%Q];
       rc_confidence := 0.9%Q; rc_person_id := None;
       rc_timestamp := None |} ].

Definition ordered_analyzer : BehavioralAnalyzer :=
  init default_min_baseline_days
    [ {| timestamp := at_day some_day 9 0 0; camera := "hall";
         person_id := None;
         position := (((0.4 + 0.6) / 2)%Q, ((0.4 + 0.6) / 2)%Q);
         confidence := 0.9%Q |};
      {| timestamp := at_day (some_day + 8) 9 0 0; camera := "hall";
         person_id := None;
         position := (((0.4 + 0.6) / 2)%Q, ((0.4 + 0.6) / 2)%Q);
         confidence := 0.9%Q |} ]
    None.

(** *** get_daily_summary *)

(** pandas' [unique()]: the distinct values, in order of first
    appearance. *)
Fixpoint unique (l : list string) : list string :=
  match l with
  | [] => []
  | x :: l' => x :: filter (λ y, y ≠ x) (unique l')
  end.

(** pandas' [groupby(...).size().to_dict()]: how often each value
    occurs. *)
Definition count_by `{Countable K} (l : list K) : gmap K nat :=
  foldr (λ k m, <[k := S (default 0%nat (m !! k))]> m) ∅ l.

(** The summary dictionary; [ds_date] is the midnight that the source
    renders as YYYY-MM-DD. *)
Record DailySummary := {
  ds_date : datetime;
  ds_total_events : nat;
  ds_unique_cameras : list string;
  ds_hourly_activity : gmap Z nat;
  ds_camera_activity : gmap string nat;
  ds_persons_detected : list string
}.

(** [get_daily_summary]; [None] is the dictionary that only says that no
    activity was recorded. *)
Definition get_daily_summary (a : BehavioralAnalyzer) (now : datetime)
    (date : option datetime) : option DailySummary :=
  let date := default now date in
  let start := date - time_of_day date in
  let end_ := start + days 1 in
  let day_events :=
    filter (λ e, start ≤ timestamp e ∧ timestamp e < end_) (events a) in
  match day_events with
  | [] => None
  | _ =>
      Some {| ds_date := start;
              ds_total_events := length day_events;
              ds_unique_cameras := unique (camera <$> day_events);
              ds_hourly_activity :=
                count_by ((λ e, hour (timestamp e)) <$> day_events);
              ds_camera_activity := count_by (camera <$> day_events);
              ds_persons_detected :=
                unique ((λ e, person_or_unknown (person_id e))
                          <$> day_events) |}
  end.

(** The events of the log that fall on the calendar day of [date]. *)
Definition events_on (a : BehavioralAnalyzer) (date : datetime)
    : list MovementEvent :=
  filter (λ e, timestamp e / usec_per_day = date / usec_per_day) (events a).

End Behavioral.

(** ** alert_deduplication.py: the high-level filter *)

Module DedupFilter.
Import Clock AlertDedup.

(** The alert dictionary built by [SmartAlertFilter.process_detection]. *)
Record FilterAlert := {
  fa_camera : string;
  fa_person : string;
  fa_objects : list Detection;
  fa_description : string;
  fa_confidence : Q;
  fa_timestamp : datetime;
  fa_is_new_detection : bool
}.

(** [class SmartAlertFilter]; its [quality_filter] attribute is [None]
    throughout and never read. *)
Record SmartAlertFilter := {
  deduplicator : AlertDeduplicator;
  min_confidence : Q
}.

(** [SmartAlertFilter.__init__] *)
Definition init : SmartAlertFilter :=
  {| deduplicator := AlertDedup.init 300; min_confidence := 0.6 |}.

(** [SmartAlertFilter.process_detection]; both clock reads of a call see
    the instant [now]. *)
Definition process_detection (f : SmartAlertFilter) (now : datetime)
    (camera person : string) (objs : list Detection) (description : string)
    (confidence : Q) : SmartAlertFilter * option FilterAlert :=
  if Behavioral.Qlt_bool confidence (min_confidence f) then (f, None)
  else
    let '(d', alert) :=
      should_alert (deduplicator f) now camera person objs in
    let f' := {| deduplicator := d'; min_confidence := min_confidence f |} in
    if alert then
      (f', Some {| fa_camera := camera;
                   fa_person := person;
                   fa_objects := objs;
                   fa_description := description;
                   fa_confidence := confidence;
                   fa_timestamp := now;
                   fa_is_new_detection := true |})
    else (f', None).

(** One call of [process_detection]. *)
Record FilterCall := {
  fc_now : datetime;
  fc_camera : string;
  fc_person : string;
  fc_objects : list Detection;
  fc_description : string;
  fc_confidence : Q
}.

Definition process_call (f : SmartAlertFilter) (c : FilterCall)
    : SmartAlertFilter * option FilterAlert :=
  process_detection f (fc_now c) (fc_camera c) (fc_person c) (fc_objects c)
    (fc_description c) (fc_confidence c).

(** Run a sequence of calls; the alerts that were built, in order. *)
Fixpoint process_all (f : SmartAlertFilter) (cs : list FilterCall)
    : SmartAlertFilter * list FilterAlert :=
  match cs with
  | [] => (f, [])
  | c :: cs' =>
      let '(f1, a) := process_call f c in
      let '(f2, rest) := process_all f1 cs' in
      (f2, match a with Some x => x :: rest | None => rest end)
  end.

(** The calls that pass the confidence threshold [threshold]. *)
Definition confident (threshold : Q) (cs : list FilterCall)
    : list FilterCall :=
  filter (λ c, Behavioral.Qlt_bool (fc_confidence c) threshold = false) cs.

End DedupFilter.

(** ** main.py: the behavioural step of [process_frame] *)

Module Pipeline.
Import Clock Behavioral.

(** A detection as [ObjectDetector.detect] builds it. *)
Record FrameDetection := {
  fd_class : string;
  fd_confidence : Q;
  fd_bbox : list Q
}.

(** Step 3 of [VigilHome.process_frame]: every detection of class
    "person" is recorded without a subject under the frame's timestamp and
    checked at once; a verdict overwrites [results["anomaly"]].  An
    exception (here: a bounding box with fewer than four coordinates) is
    caught around the whole loop, which ends it and keeps what was done
    before. *)
Fixpoint behavioral_step (a : BehavioralAnalyzer) (cam : string)
    (stamp : datetime) (dets : list FrameDetection)
    (anomaly : option Anomaly) : BehavioralAnalyzer * option Anomaly :=
  match dets with
  | [] => (a, anomaly)
  | det :: rest =>
      if decide (fd_class det = "person"%string) then
        match record_movement a stamp cam (fd_bbox det) (fd_confidence det)
                None (Some stamp) with
        | Some (a1, ev) =>
            match detect_anomaly a1 ev with
            | Some verdict => behavioral_step a1 cam stamp rest (Some verdict)
            | None => behavioral_step a1 cam stamp rest anomaly
            end
        | None => (a, anomaly)
        end
      else behavioral_step a cam stamp rest anomaly
  end.

(** The event that the step records for a person detection. *)
Definition event_of (cam : string) (stamp : datetime) (det : FrameDetection)
    : option MovementEvent :=
  x1 ← fd_bbox det !! 0%nat;
  x2 ← fd_bbox det !! 2%nat;
  y1 ← fd_bbox det !! 1%nat;
  y2 ← fd_bbox det !! 3%nat;
  Some {| timestamp := stamp; camera := cam; person_id := None;
          position := (((x1 + x2) / 2)%Q, ((y1 + y2) / 2)%Q);
          confidence := fd_confidence det |}.

(** The person detections of a frame. *)
Definition persons (dets : list FrameDetection) : list FrameDetection :=
  filter (λ det, fd_class det = "person"%string) dets.

(** The verdict that survives a sequence of checks: the last one given. *)
Definition last_verdict (a : BehavioralAnalyzer) (evs : list MovementEvent)
    (anomaly : option Anomaly) : option Anomaly :=
  foldl (λ acc ev, match detect_anomaly a ev with
                   | Some verdict => Some verdict
                   | None => acc
                   end) anomaly evs.

End Pipeline.

(** ** quality_filter.py *)

Module Quality.
Local Open Scope string_scope.

(** The two keys of a detection dictionary that the filter reads; an
    absent key is [None]. *)
Record QDetection := {
  qd_confidence : option Q;
  qd_description : option string
}.

Definition LOW_QUALITY_KEYWORDS : list string :=
  [ "blur"; "blurry"; "blurred"; "unclear"; "fuzzy";
    "dark"; "too dark"; "obscured"; "hidden";
    "silhouette"; "shadow"; "uncertain" ].

Definition MIN_CONFIDENCE : Q := 0.6.

(** The first keyword of the list that occurs in the description: the
    [for keyword in ...: if keyword in description] loop of both
    methods. *)
Fixpoint first_keyword (keywords : list string) (description : string)
    : option string :=
  match keywords with
  | [] => None
  | keyword :: rest =>
      if Str.contains keyword description then Some keyword
      else first_keyword rest description
  end.

(** [QualityFilter.is_quality_detection] *)
Definition is_quality_detection (d : QDetection) : bool :=
  let confidence := default 0%Q (qd_confidence d) in
  if Behavioral.Qlt_bool confidence MIN_CONFIDENCE then false
  else
    let description := Str.lower (default "" (qd_description d)) in
    match first_keyword LOW_QUALITY_KEYWORDS description with
    | Some _ => false
    | None => true
    end.

(** [QualityFilter.filter_detections] *)
Definition filter_detections (ds : list QDetection) : list QDetection :=
  filter (λ d, is_quality_detection d = true) ds.

(** The reasons of [get_filter_reason]: "low_confidence (c)",
    "low_quality_keyword (k)" and "unknown". *)
Inductive Reason :=
| low_confidence (confidence : Q)
| low_quality_keyword (keyword : string)
| unknown_reason.

(** [QualityFilter.get_filter_reason] *)
Definition get_filter_reason (d : QDetection) : Reason :=
  let confidence := default 0%Q (qd_confidence d) in
  if Behavioral.Qlt_bool confidence MIN_CONFIDENCE
  then low_confidence confidence
  else
    let description := Str.lower (default "" (qd_description d)) in
    match first_keyword LOW_QUALITY_KEYWORDS description with
    | Some keyword => low_quality_keyword keyword
    | None => unknown_reason
    end.

End Quality.

(** * Properties *)

(** ** The alert de-duplicator *)

Section DedupProperties.
Import Clock AlertDedup.

Lemma total_seconds_gt_false (a b s : Z) :
  a - b ≤ seconds s → total_seconds_gt a b s = false.
Proof. intros H. unfold total_seconds_gt. apply Z.ltb_ge. exact H. Qed.

Lemma should_alert_arrival d now camera person objs :
  active_detections d !! camera = None →
  (should_alert d now camera person objs).2 = true
  ∧ cooldown (should_alert d now camera person objs).1 = cooldown d
  ∧ tracking (should_alert d now camera person objs).1 camera person
      (current_objects_of objs) now.
Proof.
  intros Hnone. unfold should_alert. rewrite Hnone. cbn.
  split; [done|]. split; [done|].
  eexists. split; [apply lookup_insert_eq|done].
Qed.

Lemma should_alert_unchanged d now camera person objs tracked prev :
  tracking d camera person tracked prev →
  current_objects_of objs ⊆ tracked →
  now - prev ≤ seconds (cooldown d) →
  (should_alert d now camera person objs).2 = false
  ∧ cooldown (should_alert d now camera person objs).1 = cooldown d
  ∧ tracking (should_alert d now camera person objs).1 camera person
      tracked now.
Proof.
  intros (st & Hst & Hp & Ho & Hl) Hsub Hcd.
  unfold should_alert. rewrite Hst.
  destruct (decide (person_name st = person)) as [_|Hne]; [|done].
  destruct (decide (current_objects_of objs ∖ objects st ≠ ∅)) as [Hnew|_].
  { exfalso. apply Hnew. rewrite Ho. by apply subseteq_empty_difference_L. }
  rewrite total_seconds_gt_false by (rewrite Hl; exact Hcd).
  cbn. split; [done|]. split; [done|].
  eexists. split; [apply lookup_insert_eq|done].
Qed.

Lemma observe_all_unchanged (os : list Observation) :
  ∀ d camera person tracked prev,
    tracking d camera person tracked prev →
    quiet_run (cooldown d) prev tracked os →
    (observe_all d camera person os).2 = replicate (length os) false.
Proof.
  induction os as [|o os IH]; intros d camera person tracked prev Ht Hq.
  - reflexivity.
  - destruct Hq as (Hcd & Hsub & Hq). cbn [observe_all].
    destruct (should_alert_unchanged d (obs_time o) camera person
                (obs_objects o) tracked prev Ht Hsub Hcd)
      as (Hb & Hc & Ht').
    destruct (should_alert d (obs_time o) camera person (obs_objects o))
      as [d1 b] eqn:E1. cbn in Hb, Hc, Ht'. subst b.
    rewrite <- Hc in Hq.
    specialize (IH d1 camera person tracked (obs_time o) Ht' Hq).
    destruct (observe_all d1 camera person os) as [d2 bs].
    cbn in IH |- *. by rewrite IH.
Qed.

(** C1.  Starting from a de-duplicator that tracks nothing at [camera],
    a sequence of observations of one subject at that camera, each within
    the cooldown of the previous one and showing no object class outside
    the tracked set, is answered [True] once (the arrival) and [False]
    (unchanged) ever after. *)
Theorem should_alert_arrived_then_unchanged
    (d : AlertDeduplicator) (camera person : string)
    (o : Observation) (os : list Observation) :
  active_detections d !! camera = None →
  quiet_run (cooldown d) (obs_time o)
    (current_objects_of (obs_objects o)) os →
  (observe_all d camera person (o :: os)).2
  = true :: replicate (length os) false.
Proof.
  intros Hnone Hq. cbn [observe_all].
  destruct (should_alert_arrival d (obs_time o) camera person
              (obs_objects o) Hnone) as (Hb & Hc & Ht).
  destruct (should_alert d (obs_time o) camera person (obs_objects o))
    as [d1 b] eqn:E1. cbn in Hb, Hc, Ht. subst b.
  rewrite <- Hc in Hq.
  pose proof (observe_all_unchanged os d1 camera person _ _ Ht Hq) as Hrest.
  destruct (observe_all d1 camera person os) as [d2 bs].
  cbn in Hrest |- *. by rewrite Hrest.
Qed.

Lemma should_alert_arrived_then_unchanged_witness :
  (observe_all (init default_cooldown) "hall" "A"
     ({| obs_time := 0; obs_objects := [person_det; dog_det] |}
        :: later_sightings)).2
  = [true; false; false].
Proof.
  apply (should_alert_arrived_then_unchanged (init default_cooldown)
           "hall" "A"
           {| obs_time := 0; obs_objects := [person_det; dog_det] |}
           later_sightings).
  - reflexivity.
  - cbn. repeat split; try (vm_compute; congruence); set_solver.
Defined.

End DedupProperties.

Section DedupInvariant.
Import Clock AlertDedup.

Lemma filter_key_absent {V : Type} (k : string) (l : list (string * V)) :
  k ∉ l.*1 → filter (λ item : string * V, item.1 = k) l = [].
Proof.
  induction l as [|[k' v] l IH]; intros Hnotin; [done|].
  rewrite fmap_cons in Hnotin. apply not_elem_of_cons in Hnotin as [Hne Hl].
  rewrite filter_cons. cbn [fst] in *.
  destruct (decide (k' = k)); [congruence|]. by apply IH.
Qed.

Lemma filter_key_at_most_one {V : Type} (k : string)
    (l : list (string * V)) :
  NoDup l.*1 →
  (length (filter (λ item : string * V, item.1 = k) l) ≤ 1)%nat.
Proof.
  induction l as [|[k' v] l IH]; intros Hnd; [cbn; lia|].
  apply NoDup_cons in Hnd as [Hnotin Hnd].
  rewrite filter_cons. cbn [fst]. destruct (decide (k' = k)) as [->|Hne].
  - rewrite (filter_key_absent k l Hnotin). cbn. lia.
  - by apply IH.
Qed.

Lemma states_at_at_most_one d camera :
  (length (states_at d camera) ≤ 1)%nat.
Proof. apply filter_key_at_most_one, NoDup_fst_map_to_list. Qed.

Lemma states_at_lookup d camera st :
  active_detections d !! camera = Some st →
  states_at d camera = [(camera, st)].
Proof.
  intros Hst.
  assert ((camera, st) ∈ states_at d camera) as Hin.
  { apply list_elem_of_filter. split; [done|]. by apply elem_of_map_to_list. }
  pose proof (states_at_at_most_one d camera) as Hlen.
  destruct (states_at d camera) as [|x [|y l]]; cbn in Hlen.
  - by apply elem_of_nil in Hin.
  - apply list_elem_of_singleton in Hin. by subst x.
  - lia.
Qed.

Lemma dom_foldl_delete {V : Type} (l : list string) :
  ∀ m : gmap string V,
    dom (foldl (λ a k, delete k a) m l) ⊆ dom m.
Proof.
  induction l as [|k l IH]; intros m; cbn; [done|].
  etrans; [apply IH|]. rewrite dom_delete_L. set_solver.
Qed.

Lemma dom_should_alert d now camera person objs :
  dom (active_detections (should_alert d now camera person objs).1)
  = {[camera]} ∪ dom (active_detections d).
Proof.
  unfold should_alert.
  destruct (active_detections d !! camera) as [st|] eqn:Hst;
    repeat case_decide; repeat case_match; cbn;
    by rewrite dom_insert_L.
Qed.

Lemma dom_step d c :
  dom (active_detections (step d c))
  ⊆ dom (active_detections d) ∪ observed_cameras [c].
Proof.
  destruct c as [now camera person objs|camera|now max_age]; cbn [step].
  - rewrite dom_should_alert. cbn. set_solver.
  - unfold mark_left. destruct (active_detections d !! camera); cbn.
    + rewrite dom_delete_L. set_solver.
    + set_solver.
  - unfold cleanup_old. cbn.
    etrans; [apply dom_foldl_delete|]. set_solver.
Qed.

Lemma dom_run (cs : list Call) :
  ∀ d, dom (active_detections (run d cs))
       ⊆ dom (active_detections d) ∪ observed_cameras cs.
Proof.
  induction cs as [|c cs IH]; intros d; [cbn; set_solver|].
  change (run d (c :: cs)) with (run (step d c) cs).
  etrans; [apply IH|].
  pose proof (dom_step d c) as Hs.
  destruct c; cbn in Hs |- *; set_solver.
Qed.

(** C8.  Whatever calls were made, [active_detections] lists at most one
    state for a camera, and only cameras that were observed (or tracked
    at the start) have one.  Observing a different subject at a tracked
    camera answers [True] and rewrites that camera's single state in
    place: new subject, new object set, alert counter plus one. *)
Theorem one_state_per_camera :
  (∀ d cs camera, (length (states_at (run d cs) camera) ≤ 1)%nat)
  ∧ (∀ d cs, dom (active_detections (run d cs))
              ⊆ dom (active_detections d) ∪ observed_cameras cs)
  ∧ (∀ d now camera person objs st,
       active_detections d !! camera = Some st →
       person_name st ≠ person →
       let d' := (should_alert d now camera person objs).1 in
       (should_alert d now camera person objs).2 = true
       ∧ states_at d' camera
         = [(camera, {| person_name := person;
                        objects := current_objects_of objs;
                        last_seen := now;
                        alert_count := alert_count st + 1 |})]
       ∧ dom (active_detections d') = dom (active_detections d)
       ∧ size (active_detections d') = size (active_detections d)).
Proof.
  split; [intros; apply states_at_at_most_one|].
  split; [intros; apply dom_run|].
  intros d now camera person objs st Hst Hne d'.
  assert (Hdom : dom (active_detections d') = dom (active_detections d)).
  { subst d'. rewrite dom_should_alert.
    apply elem_of_dom_2 in Hst. set_solver. }
  subst d'. revert Hdom. unfold should_alert. rewrite Hst.
  destruct (decide (person_name st = person)) as [|_]; [done|].
  cbn. intros Hdom. split; [done|]. split.
  - apply states_at_lookup. cbn. apply lookup_insert_eq.
  - split; [done|]. by rewrite <- !size_dom, Hdom.
Qed.

Lemma one_state_per_camera_witness :
  let d := (should_alert (init default_cooldown) 0 "hall" "A"
              [person_det; dog_det]).1 in
  states_at (should_alert d (seconds 10) "hall" "B" [person_det]).1 "hall"
  = [("hall", {| person_name := "B"; objects := ∅;
                 last_seen := seconds 10; alert_count := 2 |})].
Proof.
  intros d.
  destruct one_state_per_camera as (_ & _ & H).
  destruct (H d (seconds 10) "hall" "B" [person_det]
              {| person_name := "A";
                 objects := current_objects_of [person_det; dog_det];
                 last_seen := 0; alert_count := 1 |})
    as (_ & Hs & _).
  - reflexivity.
  - cbn. congruence.
  - exact Hs.
Defined.

End DedupInvariant.

(** ** The smart alert manager *)

Section SmartAlertProperties.
Import Clock SmartAlerts.

Lemma time_of_day_at_day (d h m s : Z) :
  0 ≤ time_hm h m + seconds s < usec_per_day →
  time_of_day (at_day d h m s) = time_hm h m + seconds s.
Proof.
  intros Hr. unfold time_of_day, at_day, days.
  rewrite <- Z.add_assoc, Z.add_comm, Z_mod_plus_full.
  by apply Z.mod_small.
Qed.

(** C3.  With quiet hours enabled and a window whose start is after its
    end, [_is_quiet_hours] answers [True] exactly when the time of day is
    at or after the start, or at or before the end.  For 23:00-07:00 it is
    [True] at 23:30 and at 06:59 and [False] at 12:00, on any day. *)
Theorem quiet_hours_across_midnight :
  (∀ (m : SmartAlertManager) (quiet : QuietHours) (now : datetime)
     (start end_ : Z),
      quiet_hours (config m) = Some quiet →
      qh_enabled quiet = true →
      Str.strptime_HM (qh_start quiet) = Some start →
      Str.strptime_HM (qh_end quiet) = Some end_ →
      end_ < start →
      _is_quiet_hours m now
      = Some (bool_decide (start ≤ time_of_day now
                           ∨ time_of_day now ≤ end_)))
  ∧ (∀ day : Z,
       _is_quiet_hours (init night_config) (at_day day 23 30 0) = Some true
       ∧ _is_quiet_hours (init night_config) (at_day day 6 59 0) = Some true
       ∧ _is_quiet_hours (init night_config) (at_day day 12 0 0)
         = Some false).
Proof.
  split.
  - intros m quiet now start end_ Hq Hen Hs He Hlt.
    unfold _is_quiet_hours. rewrite Hq, Hen, Hs, He. cbn.
    destruct (start <? end_) eqn:E; [apply Z.ltb_lt in E; lia|].
    f_equal.
    destruct (Z.leb_spec start (time_of_day now));
      destruct (Z.leb_spec (time_of_day now) end_); cbn;
      symmetry; (apply bool_decide_eq_true || apply bool_decide_eq_false);
      lia.
  - intros day. unfold _is_quiet_hours. cbn -[time_of_day at_day].
    rewrite !time_of_day_at_day by (vm_compute; split; congruence).
    repeat split; reflexivity.
Qed.

Lemma quiet_hours_across_midnight_witness :
  _is_quiet_hours (init night_config) (at_day some_day 23 30 0) = Some true.
Proof.
  rewrite (proj1 quiet_hours_across_midnight (init night_config)
             {| qh_enabled := true; qh_start := "23:00";
                qh_end := "07:00" |}
             (at_day some_day 23 30 0)
             (time_hm 23 0) (time_hm 7 0)).
  - reflexivity.
  - reflexivity.
  - reflexivity.
  - reflexivity.
  - reflexivity.
  - vm_compute. reflexivity.
Defined.

(** *** The unknown-person rate limit *)

Lemma has_colon_key_of (camera person : string) :
  Str.has_colon (key_of camera person) = true.
Proof.
  unfold key_of. induction camera as [|c camera IH]; simpl.
  - reflexivity.
  - rewrite IH. apply orb_true_r.
Qed.

Lemma key_of_not_unknown (camera person : string) :
  key_of camera person ≠ "unknown"%string.
Proof.
  intros Heq. pose proof (has_colon_key_of camera person) as Hc.
  rewrite Heq in Hc. vm_compute in Hc. discriminate.
Qed.

Lemma process_detection_quiet_error m now camera person objs description
    confidence image_path :
  _is_quiet_hours m now = None →
  process_detection m now camera person objs description confidence
    image_path = None.
Proof. intros Hq. unfold process_detection. by rewrite Hq. Qed.

Lemma process_detection_unfold m now camera person objs description
    confidence image_path quiet :
  _is_quiet_hours m now = Some quiet →
  process_detection m now camera person objs description confidence
    image_path
  = if quiet && negb (_is_emergency person description)
    then Some (m, None)
    else if _is_new_person m now camera person then
      Some (_track_person m now camera person,
            Some (NewPersonAlert camera person now))
    else if _has_person_left m now camera person then
      Some (_remove_person m camera person,
            Some (PersonLeftAlert camera person now))
    else Some (after_presence m now camera person objs description
                 image_path).
Proof. intros Hq. unfold process_detection. by rewrite Hq. Qed.

Lemma process_detection_never_writes_unknown
    m now camera person objs description confidence image_path m' a :
  last_alerts m !! "unknown"%string = None →
  process_detection m now camera person objs description confidence
    image_path = Some (m', a) →
  last_alerts m' !! "unknown"%string = None.
Proof.
  intros Hnone.
  destruct (_is_quiet_hours m now) as [quiet|] eqn:Hq;
    [rewrite (process_detection_unfold _ _ _ _ _ _ _ _ _ Hq)
    |by rewrite process_detection_quiet_error].
  destruct (quiet && negb (_is_emergency person description)).
  { intros ?; simplify_eq. exact Hnone. }
  destruct (_is_new_person m now camera person).
  { intros ?; simplify_eq. cbn.
    rewrite lookup_insert_ne by apply key_of_not_unknown. exact Hnone. }
  destruct (_has_person_left m now camera person).
  { intros ?; simplify_eq. unfold _remove_person.
    by destruct (active_persons m !! key_of camera person). }
  unfold after_presence.
  repeat case_match; intros ?; simplify_eq; exact Hnone.
Qed.

Lemma process_all_never_writes_unknown (cs : list DetectionCall) :
  ∀ m m' alerts,
    last_alerts m !! "unknown"%string = None →
    process_all m cs = Some (m', alerts) →
    last_alerts m' !! "unknown"%string = None.
Proof.
  induction cs as [|c cs IH]; intros m m' alerts Hnone; cbn.
  - intros ?; simplify_eq. exact Hnone.
  - destruct (process_call m c) as [[m1 a]|] eqn:E1; cbn; [|discriminate].
    destruct (process_all m1 cs) as [[m2 rest]|] eqn:E2; cbn;
      [|discriminate].
    intros ?; simplify_eq. apply (IH m1 m' rest); [|exact E2].
    unfold process_call in E1.
    exact (process_detection_never_writes_unknown _ _ _ _ _ _ _ _ _ _
             Hnone E1).
Qed.

(** No history of detections arms the unknown-person limiter: the entry
    it reads is never written, so it answers [True] at any instant later
    than five minutes after [datetime.min]. *)
Lemma should_alert_unknown_always cfg cs m alerts now :
  process_all (init cfg) cs = Some (m, alerts) →
  seconds 300 < now →
  _should_alert_unknown m now = true.
Proof.
  intros Hrun Hnow. unfold _should_alert_unknown.
  rewrite (process_all_never_writes_unknown cs (init cfg) m alerts
             (lookup_empty _) Hrun).
  cbn. unfold total_seconds_gt, datetime_min. apply Z.ltb_lt. lia.
Qed.

(** C2 (the code departs from the claim).  An unknown person seen three
    times within twenty seconds: after the arrival alert, the
    unknown-person alert is sent at 10:00:10 and again at 10:00:20. *)
Theorem unknown_alert_repeats_within_rate_limit :
  snd <$> process_all (init plain_config) unknown_burst
  = Some [ Some (NewPersonAlert "sala" "unknown" (at_day some_day 10 0 0));
           Some (UnknownPersonAlert "sala" (at_day some_day 10 0 10));
           Some (UnknownPersonAlert "sala" (at_day some_day 10 0 20)) ].
Proof. vm_compute. reflexivity. Qed.

(** *** Presence tracking *)






End SmartAlertProperties.

(** ** The behavioural analyzer *)

Section BaselineSpan.
Import Clock Behavioral.

(** C7 (the code departs from the claim).  Two events recorded through
    [record_movement], the first stamped eight days after the second: the
    oldest and the newest event are eight days apart, which is more than
    the seven days required, yet [has_sufficient_baseline] answers
    [False], because it subtracts the first entry of the log from the
    last one. *)
Theorem has_sufficient_baseline_out_of_order :
  (λ a, (min_baseline_days a,
         span_days (timestamp <$> events a),
         has_sufficient_baseline a)) <$> out_of_order_analyzer
  = Some (7, 8, false).
Proof. vm_compute. reflexivity. Qed.

End BaselineSpan.

Section AnomalyProperties.
Import Clock Behavioral.

Lemma person_patterns_nil (m : gmap string BehavioralPattern) e :
  person_patterns_of m e = []
  ↔ ∀ k p, m !! k = Some p → bp_person_id p ≠ person_id e.
Proof.
  unfold person_patterns_of. split.
  - intros Hnil k p Hk Heq.
    assert (p ∈ filter (λ p, bp_person_id p = person_id e)
                  (map_to_list m).*2) as Hin.
    { apply list_elem_of_filter. split; [done|].
      apply list_elem_of_fmap. exists (k, p). split; [done|].
      by apply elem_of_map_to_list. }
    rewrite Hnil in Hin. by apply elem_of_nil in Hin.
  - intros Hall.
    destruct (filter (λ p, bp_person_id p = person_id e)
                (map_to_list m).*2) as [|p l] eqn:E; [done|].
    assert (p ∈ filter (λ p, bp_person_id p = person_id e)
                  (map_to_list m).*2) as Hin.
    { rewrite E. apply list_elem_of_here. }
    apply list_elem_of_filter in Hin as [Heq Hin].
    apply list_elem_of_fmap in Hin as ([k p'] & -> & Hin).
    apply elem_of_map_to_list in Hin. by destruct (Hall k p' Hin).
Qed.



End AnomalyProperties.

Section PositionAnomaly.
Import Clock Behavioral.













End PositionAnomaly.

Section Grouping.
Import Clock Behavioral.

Lemma alookup_alist_upd {V : Type} (k k' : string) (dflt : V) (f : V → V)
    (d : list (string * V)) :
  alookup k' (alist_upd k dflt f d)
  = if decide (k' = k) then Some (f (default dflt (alookup k d)))
    else alookup k' d.
Proof.
  induction d as [|[k0 v] d IH]; cbn.
  - destruct (decide (k = k')), (decide (k' = k)); congruence.
  - destruct (decide (k0 = k)) as [->|Hne]; cbn.
    + destruct (decide (k = k')), (decide (k' = k)); congruence.
    + rewrite IH.
      destruct (decide (k0 = k')), (decide (k' = k)); congruence.
Qed.

Lemma alist_upd_keys {V : Type} (k : string) (dflt : V) (f : V → V)
    (d : list (string * V)) :
  (alist_upd k dflt f d).*1 = if decide (k ∈ d.*1) then d.*1
                              else d.*1 ++ [k].
Proof.
  induction d as [|[k0 v] d IH]; cbn.
  - rewrite decide_False; [done|]. apply not_elem_of_nil.
  - destruct (decide (k0 = k)) as [->|Hne]; cbn.
    + rewrite decide_True; [done|]. apply list_elem_of_here.
    + rewrite IH. destruct (decide (k ∈ d.*1)) as [Hin|Hnin].
      * rewrite decide_True; [done|]. by apply list_elem_of_further.
      * rewrite decide_False; [done|].
        intros [?|?]%elem_of_cons; congruence.
Qed.

Lemma alist_upd_NoDup {V : Type} (k : string) (dflt : V) (f : V → V)
    (d : list (string * V)) :
  NoDup d.*1 → NoDup (alist_upd k dflt f d).*1.
Proof.
  intros Hnd. rewrite alist_upd_keys. case_decide; [done|].
  apply NoDup_app. split; [done|]. split.
  - intros x Hx Hk. apply list_elem_of_singleton in Hk. by subst x.
  - apply NoDup_singleton.
Qed.

Lemma alist_upd_elem {V : Type} (k k' : string) (dflt : V) (f : V → V)
    (d : list (string * V)) (v' : V) :
  (k', v') ∈ alist_upd k dflt f d →
  (k', v') ∈ d
  ∨ (k' = k ∧ ∃ v, v' = f v ∧ ((k, v) ∈ d ∨ v = dflt)).
Proof.
  induction d as [|[k0 v] d IH]; cbn.
  - intros Hin. apply list_elem_of_singleton in Hin. inversion Hin; subst. right. split; [done|].
    exists dflt. by split; [|right].
  - destruct (decide (k0 = k)) as [->|Hne].
    + intros [Heq|Hin]%elem_of_cons.
      * inversion Heq; subst. right. split; [done|].
        exists v. split; [done|]. left. apply list_elem_of_here.
      * left. by apply list_elem_of_further.
    + intros [Heq|Hin]%elem_of_cons.
      * left. rewrite Heq. apply list_elem_of_here.
      * destruct (IH Hin) as [Hold|(-> & w & -> & [Hw| ->])].
        -- left. by apply list_elem_of_further.
        -- right. split; [done|]. exists w. split; [done|]. left.
           by apply list_elem_of_further.
        -- right. split; [done|]. exists dflt. by split; [|right].
Qed.

Lemma alookup_elem {V : Type} (k : string) (v : V) (d : list (string * V)) :
  NoDup d.*1 → (k, v) ∈ d → alookup k d = Some v.
Proof.
  induction d as [|[k0 v0] d IH]; intros Hnd Hin.
  - by apply elem_of_nil in Hin.
  - cbn in Hnd. apply NoDup_cons in Hnd as [Hnotin Hnd]. cbn.
    apply elem_of_cons in Hin as [Heq|Hin].
    + inversion Heq; subst. by rewrite decide_True.
    + destruct (decide (k0 = k)) as [->|Hne]; [|by apply IH].
      destruct Hnotin. apply list_elem_of_fmap. by exists (k, v).
Qed.

Lemma occurrences_in_snoc (rows : list Row) (r : Row) (key pid : string) :
  occurrences_in (rows ++ [r]) key pid
  = occurrences_in rows key pid
    ++ (if decide (group_key r = key ∧ row_person_id r = pid)
        then [occurrence_of r] else []).
Proof.
  unfold occurrences_in. rewrite filter_app, fmap_app. f_equal.
  rewrite filter_cons, filter_nil. by case_decide.
Qed.

Lemma group_rows_snoc (rows : list Row) (r : Row) :
  group_rows (rows ++ [r]) = group_insert (group_rows rows) r.
Proof. unfold group_rows. by rewrite foldl_app. Qed.

Lemma glookup_default (g : Groups) (key pid : string) :
  default [] (glookup g key pid)
  = default [] (alookup pid (default [] (alookup key g))).
Proof. unfold glookup. by destruct (alookup key g). Qed.

Lemma glookup_group_insert (g : Groups) (r : Row) (key pid : string) :
  default [] (glookup (group_insert g r) key pid)
  = default [] (glookup g key pid)
    ++ (if decide (group_key r = key ∧ row_person_id r = pid)
        then [occurrence_of r] else []).
Proof.
  rewrite !glookup_default. unfold group_insert.
  rewrite (alookup_alist_upd (group_key r) key).
  destruct (decide (key = group_key r)) as [->|Hk]; cbn [from_option]; unfold Datatypes.id.
  - rewrite (alookup_alist_upd (row_person_id r) pid).
    destruct (decide (pid = row_person_id r)) as [->|Hp]; cbn [from_option]; unfold Datatypes.id.
    + by rewrite decide_True.
    + rewrite decide_False by (intros [_ ?]; congruence).
      by rewrite app_nil_r.
  - rewrite decide_False by (intros [? _]; congruence).
    by rewrite app_nil_r.
Qed.

(** The dictionary of groups holds, under every key and subject, the
    occurrences of the rows of that group, in row order. *)
Lemma glookup_group_rows (rows : list Row) (key pid : string) :
  default [] (glookup (group_rows rows) key pid)
  = occurrences_in rows key pid.
Proof.
  induction rows as [|r rows IH] using rev_ind; [done|].
  by rewrite group_rows_snoc, glookup_group_insert, IH, occurrences_in_snoc.
Qed.

Lemma group_rows_NoDup (rows : list Row) :
  NoDup (group_rows rows).*1
  ∧ ∀ key pd, (key, pd) ∈ group_rows rows → NoDup pd.*1.
Proof.
  induction rows as [|r rows [IH1 IH2]] using rev_ind.
  - split; [apply NoDup_nil_2|]. intros key pd Hin.
    by apply elem_of_nil in Hin.
  - rewrite group_rows_snoc. unfold group_insert. split.
    + by apply alist_upd_NoDup.
    + intros key pd Hin.
      apply alist_upd_elem in Hin as [Hold|(-> & v & -> & [Hv| ->])].
      * by apply (IH2 key).
      * apply alist_upd_NoDup. by apply (IH2 (group_key r)).
      * apply alist_upd_NoDup. apply NoDup_nil_2.
Qed.

Lemma group_rows_keys (rows : list Row) (key : string) :
  key ∈ (group_rows rows).*1 → ∃ r, r ∈ rows ∧ key = group_key r.
Proof.
  induction rows as [|r rows IH] using rev_ind.
  - intros Hin. by apply elem_of_nil in Hin.
  - rewrite group_rows_snoc. unfold group_insert. rewrite alist_upd_keys.
    intros Hin.
    assert (key ∈ (group_rows rows).*1 ∨ key = group_key r) as [Hold| ->].
    { case_decide; [by left|].
      apply elem_of_app in Hin as [?|?%list_elem_of_singleton]; auto. }
    + destruct (IH Hold) as (r0 & Hr0 & ->). exists r0. split; [|done].
      apply elem_of_app. by left.
    + exists r. split; [|done]. apply elem_of_app. right.
      apply list_elem_of_here.
Qed.

(** Every entry met by the two loops of [build_baseline] is the list of
    occurrences of its group. *)
Lemma group_rows_entries (rows : list Row) key pd pid occs :
  (key, pd) ∈ group_rows rows → (pid, occs) ∈ pd →
  occs = occurrences_in rows key pid.
Proof.
  intros Hkey Hpid. destruct (group_rows_NoDup rows) as [Hnd1 Hnd2].
  rewrite <- glookup_group_rows. unfold glookup.
  rewrite (alookup_elem key pd _ Hnd1 Hkey). cbn.
  by rewrite (alookup_elem pid occs _ (Hnd2 key pd Hkey) Hpid).
Qed.

End Grouping.

Section GroupKeys.
Import Clock Behavioral.

Lemma rsplit_last_app_some (sep : ascii) (a s l r : string) :
  rsplit_last sep s = Some (l, r) →
  rsplit_last sep (a +:+ s) = Some (a +:+ l, r).
Proof.
  intros Hs. induction a as [|c a IH]; simpl; [done|]. by rewrite IH.
Qed.

Lemma rsplit_last_sep (sep : ascii) (b : string) :
  rsplit_last sep b = None →
  rsplit_last sep (String sep b) = Some (EmptyString, b).
Proof. intros Hb. cbn. rewrite Hb. by rewrite decide_True. Qed.

Lemma append_cons (c : ascii) (s t : string) :
  String c s +:+ t = String c (s +:+ t).
Proof. reflexivity. Qed.

Lemma append_empty_r (s : string) : s +:+ "" = s.
Proof.
  induction s as [|c s IH]; [done|]. by rewrite append_cons, IH.
Qed.

Lemma rsplit_last_app (sep : ascii) (a b : string) :
  rsplit_last sep b = None →
  rsplit_last sep (a +:+ String sep b) = Some (a, b).
Proof.
  intros Hb.
  rewrite (rsplit_last_app_some sep a (String sep b) EmptyString b
             (rsplit_last_sep sep b Hb)).
  by rewrite append_empty_r.
Qed.

Lemma rsplit2_key (cam hr dow : string) :
  rsplit_last "_" hr = None →
  rsplit_last "_" dow = None →
  rsplit2 "_" (cam +:+ "_" +:+ hr +:+ "_" +:+ dow) = Some (cam, hr, dow).
Proof.
  intros Hhr Hdow. unfold rsplit2.
  change ("_" +:+ hr +:+ "_" +:+ dow)
    with (String "_" (hr +:+ String "_" dow)).
  assert (H1 : rsplit_last "_" (String "_" (hr +:+ String "_" dow))
               = Some (String "_" hr, dow)).
  { cbn [rsplit_last]. by rewrite (rsplit_last_app "_" hr dow Hdow). }
  rewrite (rsplit_last_app_some "_" cam _ _ _ H1). cbn [mbind option_bind].
  by rewrite (rsplit_last_app "_" cam hr Hhr).
Qed.

Lemma pretty_small (n bound : Z) :
  0 ≤ bound ≤ 24 → 0 ≤ n < bound →
  rsplit_last "_" (pretty n) = None ∧ int_of_string (pretty n) = Some n.
Proof.
  intros Hb Hn.
  assert (Hall : forallb
            (λ h, bool_decide (rsplit_last "_" (pretty h) = None
                               ∧ int_of_string (pretty h) = Some h))
            (seqZ 0 24) = true) by (vm_compute; reflexivity).
  rewrite forallb_forall in Hall.
  eapply bool_decide_eq_true_1, Hall, list_elem_of_In, elem_of_seqZ. lia.
Qed.

Lemma hour_range (t : Z) : 0 ≤ hour t < 24.
Proof. unfold hour. apply Z.mod_pos_bound. lia. Qed.

Lemma weekday_range (t : Z) : 0 ≤ weekday t < 7.
Proof. unfold weekday. apply Z.mod_pos_bound. lia. Qed.

(** The key of a row splits back into its camera, hour and weekday. *)
Lemma rsplit2_group_key (e : MovementEvent) :
  rsplit2 "_" (group_key (row_of e))
  = Some (camera e, pretty (hour (timestamp e)),
          pretty (weekday (timestamp e))).
Proof.
  unfold group_key. cbn [row_of row_camera row_hour row_day_of_week].
  apply rsplit2_key.
  - apply (pretty_small _ 24); [lia|apply hour_range].
  - apply (pretty_small _ 7); [lia|apply weekday_range].
Qed.

End GroupKeys.

Section BaselineBuild.
Import Clock Behavioral.




End BaselineBuild.

Section FrequencyScore.
Import Clock Behavioral.


Lemma foldl_min_max_bounds (ts : list Z) :
  ∀ t, foldl Z.min t ts ≤ t ≤ foldl Z.max t ts.
Proof.
  induction ts as [|x ts IH]; intros t; cbn; [lia|].
  pose proof (IH (Z.min t x)). pose proof (IH (Z.max t x)). lia.
Qed.








End FrequencyScore.

Section BaselineFrame.
Import Clock Behavioral.




End BaselineFrame.

Section BaselineSpanChronological.
Import Clock Behavioral.

Lemma foldl_max_elem (ts : list Z) :
  ∀ t x, x ∈ ts → x ≤ foldl Z.max t ts.
Proof.
  induction ts as [|y ts IH]; intros t x Hx; [by apply elem_of_nil in Hx|].
  cbn. apply elem_of_cons in Hx as [->|Hx]; [|by apply IH].
  pose proof (foldl_min_max_bounds ts (Z.max t y)). lia.
Qed.

Lemma foldl_max_le (ts : list Z) (M : Z) :
  ∀ t, t ≤ M → (∀ x, x ∈ ts → x ≤ M) → foldl Z.max t ts ≤ M.
Proof.
  induction ts as [|y ts IH]; intros t Ht Hall; cbn; [done|].
  apply IH.
  - pose proof (Hall y (list_elem_of_here _ _)). lia.
  - intros x Hx. apply Hall. by apply list_elem_of_further.
Qed.

Lemma foldl_min_ge (ts : list Z) (m : Z) :
  ∀ t, m ≤ t → (∀ x, x ∈ ts → m ≤ x) → m ≤ foldl Z.min t ts.
Proof.
  induction ts as [|y ts IH]; intros t Ht Hall; cbn; [done|].
  apply IH.
  - pose proof (Hall y (list_elem_of_here _ _)). lia.
  - intros x Hx. apply Hall. by apply list_elem_of_further.
Qed.

(** On a log whose first entry is the oldest and whose last entry is the
    newest, [has_sufficient_baseline] does compare the span between the
    oldest and the newest event with the minimum number of days. *)
Lemma has_sufficient_baseline_chronological (a : BehavioralAnalyzer)
    (e_first e_last : MovementEvent) :
  head (events a) = Some e_first →
  last (events a) = Some e_last →
  (∀ e, e ∈ events a →
        timestamp e_first ≤ timestamp e ≤ timestamp e_last) →
  has_sufficient_baseline a
  = bool_decide (min_baseline_days a
                 ≤ span_days (timestamp <$> events a)).
Proof.
  intros Hhead Hlast Hall. unfold has_sufficient_baseline.
  rewrite Hlast. destruct (events a) as [|e0 es] eqn:Hev; [done|].
  cbn in Hhead. inversion Hhead; subst e0.
  cbn [fmap list_fmap span_days].
  assert (Hmax : foldl Z.max (timestamp e_first) (timestamp <$> es)
                 = timestamp e_last).
  { apply Z.le_antisymm.
    - apply foldl_max_le; [apply Hall, list_elem_of_here|].
      intros x (e & -> & He)%list_elem_of_fmap.
      apply Hall. by apply list_elem_of_further.
    - destruct es as [|e1 es'] using rev_ind.
      + cbn in Hlast. inversion Hlast. cbn. lia.
      + rewrite app_comm_cons, last_snoc in Hlast. inversion Hlast; subst.
        apply foldl_max_elem. rewrite fmap_app. apply elem_of_app. right.
        apply list_elem_of_here. }
  assert (Hmin : foldl Z.min (timestamp e_first) (timestamp <$> es)
                 = timestamp e_first).
  { apply Z.le_antisymm; [apply foldl_min_max_bounds|].
    apply foldl_min_ge; [done|].
    intros x (e & -> & He)%list_elem_of_fmap.
    apply Hall. by apply list_elem_of_further. }
  rewrite Hmax, Hmin.
  destruct (Z.leb_spec (min_baseline_days a)
              (timedelta_days (timestamp e_last) (timestamp e_first)));
    symmetry; [by apply bool_decide_eq_true|apply bool_decide_eq_false; lia].
Qed.

End BaselineSpanChronological.

(** * Further properties *)

(** ** The alert de-duplicator, beyond the claims *)

Section DedupExtras.
Import Clock AlertDedup.

(** X1.  [should_alert] answers [False] in exactly one situation: the
    camera tracks this very person, the frame shows no object class
    outside the tracked set, and at most [cooldown] seconds have passed
    since the state was last touched. *)
Theorem should_alert_false_iff (d : AlertDeduplicator) (now : Z)
    (camera person : string) (objs : list Detection) :
  (should_alert d now camera person objs).2 = false
  ↔ ∃ st, active_detections d !! camera = Some st
          ∧ person_name st = person
          ∧ current_objects_of objs ⊆ objects st
          ∧ now - last_seen st ≤ seconds (cooldown d).
Proof.
  unfold should_alert.
  destruct (active_detections d !! camera) as [st|] eqn:Hst; cbn.
  - destruct (decide (person_name st = person)) as [Hp|Hp].
    + destruct (decide (current_objects_of objs ∖ objects st ≠ ∅))
        as [Hnew|Hsame].
      * cbn. split; [done|]. intros (st' & [= <-] & _ & Hsub & _).
        destruct Hnew. by apply subseteq_empty_difference_L.
      * assert (current_objects_of objs ⊆ objects st) as Hsub.
        { apply dec_stable in Hsame. set_solver. }
        unfold total_seconds_gt.
        destruct (Z.ltb_spec (seconds (cooldown d)) (now - last_seen st));
          cbn.
        -- split; [done|]. intros (st' & [= <-] & _ & _ & Hle). lia.
        -- split; [|done]. intros _. exists st. repeat split; [done..|lia].
    + cbn. split; [done|]. by intros (st' & [= <-] & ? & _).
  - split; [done|]. by intros (st' & ? & _).
Qed.

(** X2.  A call for one camera never touches the state of another
    camera: neither [should_alert] nor [mark_left]. *)
Theorem other_cameras_untouched (d : AlertDeduplicator) (now : Z)
    (camera other person : string) (objs : list Detection) :
  other ≠ camera →
  active_detections (should_alert d now camera person objs).1 !! other
  = active_detections d !! other
  ∧ active_detections (mark_left d camera) !! other
    = active_detections d !! other.
Proof.
  intros Hne. split.
  - unfold should_alert.
    destruct (active_detections d !! camera) as [st|];
      repeat case_decide; repeat case_match; cbn;
      by rewrite lookup_insert_ne.
  - unfold mark_left. destruct (active_detections d !! camera); cbn;
      [by rewrite lookup_delete_ne|done].
Qed.

Lemma other_cameras_untouched_witness :
  active_detections
    (should_alert (should_alert (init default_cooldown) 0 "hall" "A"
                     [dog_det]).1 (seconds 5) "door" "B" []).1 !! "hall"
  = Some {| person_name := "A"; objects := {["dog"]};
            last_seen := 0; alert_count := 1 |}.
Proof.
  rewrite (proj1 (other_cameras_untouched
                    (should_alert (init default_cooldown) 0 "hall" "A"
                       [dog_det]).1 (seconds 5) "door" "hall" "B" []
                    ltac:(discriminate))).
  vm_compute. reflexivity.
Defined.

(** X3.  When the same person is seen with an object class that is not
    tracked, the answer is [True] and the tracked set is replaced by the
    classes of the current frame: classes tracked before that the frame
    does not show are forgotten. *)
Theorem new_objects_replace_tracked_set (d : AlertDeduplicator) (now : Z)
    (camera person : string) (objs : list Detection) (st : DetectionState) :
  active_detections d !! camera = Some st →
  person_name st = person →
  ¬ current_objects_of objs ⊆ objects st →
  (should_alert d now camera person objs).2 = true
  ∧ active_detections (should_alert d now camera person objs).1 !! camera
    = Some {| person_name := person;
              objects := current_objects_of objs;
              last_seen := now;
              alert_count := alert_count st |}.
Proof.
  intros Hst Hp Hnew. unfold should_alert. rewrite Hst.
  rewrite decide_True by done.
  rewrite decide_True.
  - cbn. split; [done|]. rewrite lookup_insert_eq. by rewrite Hp.
  - intros Hempty. apply Hnew. set_solver.
Qed.

Lemma new_objects_replace_tracked_set_witness :
  active_detections
    (should_alert (should_alert (init default_cooldown) 0 "hall" "A"
                     [dog_det]).1 (seconds 5) "hall" "A"
       [{| det_class := "cat"; det_confidence := 0.7%Q |}]).1 !! "hall"
  = Some {| person_name := "A"; objects := {["cat"]};
            last_seen := seconds 5; alert_count := 1 |}.
Proof.
  refine (eq_trans
            (proj2 (new_objects_replace_tracked_set
                      (should_alert (init default_cooldown) 0 "hall" "A"
                         [dog_det]).1 (seconds 5) "hall" "A"
                      [{| det_class := "cat"; det_confidence := 0.7%Q |}]
                      {| person_name := "A"; objects := {["dog"]};
                         last_seen := 0; alert_count := 1 |} _ _ _)) _).
  - vm_compute. reflexivity.
  - reflexivity.
  - intros Hsub. specialize (Hsub "cat").
    assert (Hcat : "cat" ∈ ({["cat"]} : gset string)) by set_solver.
    specialize (Hsub Hcat). cbn in Hsub.
    apply elem_of_singleton in Hsub. discriminate.
  - vm_compute. reflexivity.
Defined.

End DedupExtras.

Section DedupSweep.
Import Clock AlertDedup.

Lemma lookup_foldl_delete {V : Type} (ks : list string) :
  ∀ (m : gmap string V) (k : string),
    foldl (λ a key, delete key a) m ks !! k
    = if decide (k ∈ ks) then None else m !! k.
Proof.
  induction ks as [|k0 ks IH]; intros m k; cbn.
  - by rewrite decide_False by apply not_elem_of_nil.
  - rewrite IH. destruct (decide (k ∈ ks)) as [Hin|Hnin].
    + by rewrite decide_True by (by apply list_elem_of_further).
    + destruct (decide (k = k0)) as [->|Hne].
      * rewrite decide_True by apply list_elem_of_here.
        apply lookup_delete_eq.
      * rewrite decide_False by (intros [?|?]%elem_of_cons; done).
        by apply lookup_delete_ne.
Qed.

Lemma cleanup_old_removes_stale (d : AlertDeduplicator) (now max_age : Z)
    (camera : string) (st : DetectionState) :
  active_detections d !! camera = Some st →
  seconds max_age < now - last_seen st →
  active_detections (cleanup_old d now max_age) !! camera = None.
Proof.
  intros Hst Hold. unfold cleanup_old. cbn. rewrite lookup_foldl_delete.
  rewrite decide_True; [done|].
  apply list_elem_of_fmap. exists (camera, st). split; [done|].
  apply list_elem_of_filter. split; [|by apply elem_of_map_to_list].
  cbn. unfold total_seconds_gt. by apply Z.ltb_lt.
Qed.

(** X4.  [cleanup_old] removes exactly the cameras whose state was last
    touched more than [max_age_seconds] ago; every other state survives
    unchanged. *)
Theorem cleanup_old_lookup (d : AlertDeduplicator) (now max_age : Z)
    (camera : string) :
  active_detections (cleanup_old d now max_age) !! camera
  = match active_detections d !! camera with
    | Some st =>
        if bool_decide (seconds max_age < now - last_seen st) then None
        else Some st
    | None => None
    end.
Proof.
  unfold cleanup_old. cbn. rewrite lookup_foldl_delete.
  destruct (active_detections d !! camera) as [st|] eqn:Hst.
  - case_decide as Hin.
    + apply list_elem_of_fmap in Hin as ([k' st'] & Hk & Hin).
      cbn in Hk. subst k'.
      apply list_elem_of_filter in Hin as [Hold Hst'].
      apply elem_of_map_to_list in Hst'. cbn in Hold.
      rewrite Hst in Hst'. inversion Hst'; subst st'.
      unfold total_seconds_gt in Hold. apply Z.ltb_lt in Hold.
      by rewrite bool_decide_eq_true_2.
    + rewrite bool_decide_eq_false_2; [done|]. intros Hold. apply Hin.
      apply list_elem_of_fmap. exists (camera, st). split; [done|].
      apply list_elem_of_filter. split; [|by apply elem_of_map_to_list].
      cbn. unfold total_seconds_gt. by apply Z.ltb_lt.
  - case_decide as Hin; [done|done].
Qed.

(** X5.  The docstring's "alert again when person leaves and returns":
    once a camera's state is gone, by [mark_left] or by a sweep that finds
    it stale, the next observation at that camera is answered [True] and
    starts a fresh state with alert counter 1, whoever is seen. *)
Theorem returns_after_leaving (d : AlertDeduplicator) (now : Z)
    (camera person : string) (objs : list Detection) :
  (∀ d', (d' = mark_left d camera
          ∨ ∃ sweep max_age st,
              d' = cleanup_old d sweep max_age
              ∧ active_detections d !! camera = Some st
              ∧ seconds max_age < sweep - last_seen st) →
         (should_alert d' now camera person objs).2 = true
         ∧ active_detections (should_alert d' now camera person objs).1
             !! camera
           = Some {| person_name := person;
                     objects := current_objects_of objs;
                     last_seen := now;
                     alert_count := 1 |}).
Proof.
  intros d' Hd'.
  assert (Hgone : active_detections d' !! camera = None).
  { destruct Hd' as [->|(sweep & max_age & st & -> & Hst & Hold)].
    - unfold mark_left.
      destruct (active_detections d !! camera) eqn:E; cbn; [|done].
      apply lookup_delete_eq.
    - by apply cleanup_old_removes_stale with st. }
  unfold should_alert. rewrite Hgone. cbn. split; [done|].
  apply lookup_insert_eq.
Qed.

Lemma returns_after_leaving_witness :
  (should_alert
     (cleanup_old (should_alert (init default_cooldown) 0 "hall" "A" []).1
        (seconds 700) 600)
     (seconds 710) "hall" "A" []).2 = true.
Proof.
  apply (returns_after_leaving
           (should_alert (init default_cooldown) 0 "hall" "A" []).1
           (seconds 710) "hall" "A" []).
  right. exists (seconds 700), 600,
    {| person_name := "A"; objects := ∅; last_seen := 0;
       alert_count := 1 |}.
  split; [reflexivity|]. split; [vm_compute; reflexivity|].
  vm_compute. reflexivity.
Defined.

End DedupSweep.

Section DedupFilterExtras.
Import Clock AlertDedup DedupFilter.

Lemma process_call_min_confidence f c :
  min_confidence (process_call f c).1 = min_confidence f.
Proof.
  unfold process_call, process_detection.
  destruct (Behavioral.Qlt_bool _ _); [done|].
  destruct (should_alert _ _ _ _ _) as [d' []]; done.
Qed.

(** X6.  Detections below the confidence threshold are invisible to the
    filter: a sequence of calls leaves the same state and builds the same
    alerts as the sequence with the low-confidence calls taken out.  In
    particular a low-confidence sighting never counts as the arrival. *)
Theorem low_confidence_calls_are_invisible (cs : list FilterCall) :
  ∀ f : SmartAlertFilter,
    process_all f cs = process_all f (confident (min_confidence f) cs).
Proof.
  induction cs as [|c cs IH]; intros f; [done|].
  unfold confident. rewrite filter_cons.
  destruct (decide (Behavioral.Qlt_bool (fc_confidence c) (min_confidence f)
                    = false)) as [Hok|Hlow].
  - cbn [process_all].
    pose proof (process_call_min_confidence f c) as Hmin.
    destruct (process_call f c) as [f1 a]. cbn in Hmin.
    rewrite IH. unfold confident. by rewrite Hmin.
  - apply not_false_is_true in Hlow. cbn [process_all].
    unfold process_call at 1, process_detection. rewrite Hlow.
    rewrite IH. unfold confident.
    by destruct (process_all f _).
Qed.

End DedupFilterExtras.

(** ** The smart alert manager, beyond the claims *)

Section SmartAlertExtras.
Import Clock SmartAlerts.

Lemma after_presence_frame m now camera person objs description image_path :
  let r := after_presence m now camera person objs description image_path in
  config r.1 = config m
  ∧ last_alerts r.1 = last_alerts m
  ∧ active_persons r.1 = active_persons m
  ∧ (is_Some r.2 → daily_images r.1 = daily_images m)
  ∧ ((length (daily_images m) ≤ 20)%nat →
     (length (daily_images r.1) ≤ 20)%nat).
Proof.
  cbv zeta. unfold after_presence, _is_interesting_for_training.
  destruct (_ && _).
  { cbn [fst snd]. do 3 (split; [reflexivity|]). split; auto. }
  destruct (20 <=? length (daily_images m))%nat eqn:E; cbn [fst snd].
  - do 3 (split; [reflexivity|]). split; auto.
  - apply Nat.leb_gt in E. cbn [config last_alerts active_persons].
    do 3 (split; [reflexivity|]). split; [by intros [? ?]|].
    intros _. cbn [daily_images]. rewrite length_app. cbn [length]. lia.
Qed.

(** X7.  A person who is not tracked at a camera but was announced there
    before is announced again only once the configured minimum time
    between alerts (default 300 s) has passed since that announcement:
    before that a detection neither raises the arrival alert nor starts
    tracking; from then on it does both and restarts the interval. *)
Theorem rearrival_respects_cooldown (m : SmartAlertManager) (now t0 : Z)
    (camera person : string) (objs : list AlertDedup.Detection)
    (description : string) (confidence : Q) (image_path : string) :
  active_persons m !! key_of camera person = None →
  last_alerts m !! key_of camera person = Some t0 →
  _is_quiet_hours m now = Some false →
  let cooldown := default 300 (min_time_between_alerts (config m)) in
  let result := process_detection m now camera person objs description
                  confidence image_path in
  (now - t0 < seconds cooldown →
   ∃ m' a, result = Some (m', a)
           ∧ a ≠ Some (NewPersonAlert camera person now)
           ∧ active_persons m' = active_persons m
           ∧ last_alerts m' = last_alerts m)
  ∧ (seconds cooldown ≤ now - t0 →
     result = Some (_track_person m now camera person,
                    Some (NewPersonAlert camera person now))
     ∧ active_persons (_track_person m now camera person)
         !! key_of camera person = Some now
     ∧ last_alerts (_track_person m now camera person)
         !! key_of camera person = Some now).
Proof.
  intros Hact Hlast Hq cooldown result. subst result.
  rewrite (process_detection_unfold _ _ _ _ _ _ _ _ _ Hq).
  rewrite andb_false_l.
  assert (Hnew : _is_new_person m now camera person
                 = negb (now - t0 <? seconds cooldown)).
  { unfold _is_new_person, total_seconds_lt. cbv zeta.
    rewrite Hact, Hlast. subst cooldown.
    by destruct (now - t0 <? _). }
  assert (Hleft : _has_person_left m now camera person = false).
  { unfold _has_person_left. cbv zeta. by rewrite Hact. }
  rewrite Hnew, Hleft. split.
  - intros Hlt. apply Z.ltb_lt in Hlt. rewrite Hlt. cbn [negb].
    pose proof (after_presence_frame m now camera person objs description
                  image_path) as (_ & Hla & Hap & _).
    exists (after_presence m now camera person objs description
              image_path).1,
           (after_presence m now camera person objs description
              image_path).2.
    split; [by rewrite <- surjective_pairing|].
    split; [|done].
    unfold after_presence. repeat case_match; discriminate.
  - intros Hge. apply Z.ltb_ge in Hge. rewrite Hge. cbn [negb].
    split; [done|]. cbn. by rewrite !lookup_insert_eq.
Qed.

Lemma rearrival_respects_cooldown_witness :
  let m := _remove_person
             (_track_person (init plain_config) (at_day some_day 10 0 0)
                "sala" "sofia") "sala" "sofia" in
  process_detection m (at_day some_day 10 5 0) "sala" "sofia" []
    "person walking" 0.9%Q "frame.jpg"
  = Some (_track_person m (at_day some_day 10 5 0) "sala" "sofia",
          Some (NewPersonAlert "sala" "sofia" (at_day some_day 10 5 0))).
Proof.
  intros m.
  apply (rearrival_respects_cooldown m (at_day some_day 10 5 0)
           (at_day some_day 10 0 0) "sala" "sofia" [] "person walking"
           0.9%Q "frame.jpg").
  - vm_compute. reflexivity.
  - vm_compute. reflexivity.
  - reflexivity.
  - vm_compute. discriminate.
Defined.

(** X8.  The collection for the daily digest never holds more than 20
    images, and a detection that raised any alert is not collected. *)
Theorem daily_images_bounded (m m' : SmartAlertManager) (now : Z)
    (camera person : string) (objs : list AlertDedup.Detection)
    (description : string) (confidence : Q) (image_path : string)
    (a : option Alert) :
  process_detection m now camera person objs description confidence
    image_path = Some (m', a) →
  (is_Some a → daily_images m' = daily_images m)
  ∧ ((length (daily_images m) ≤ 20)%nat →
     (length (daily_images m') ≤ 20)%nat).
Proof.
  destruct (_is_quiet_hours m now) as [quiet|] eqn:Hq;
    [rewrite (process_detection_unfold _ _ _ _ _ _ _ _ _ Hq)
    |by rewrite process_detection_quiet_error].
  destruct (quiet && negb (_is_emergency person description)).
  { intros ?; simplify_eq. done. }
  destruct (_is_new_person m now camera person).
  { intros ?; simplify_eq. done. }
  destruct (_has_person_left m now camera person).
  { intros ?; simplify_eq. unfold _remove_person.
    by destruct (active_persons m !! key_of camera person). }
  pose proof (after_presence_frame m now camera person objs description
                image_path) as (_ & _ & _ & Hkeep & Hlen).
  intros Heq. inversion Heq as [Heq']. rewrite Heq' in Hkeep, Hlen.
  by split.
Qed.

Lemma daily_images_bounded_witness :
  (length (daily_images
             (after_presence
                (_track_person (init plain_config) 0 "sala" "sofia")
                (seconds 10) "sala" "sofia" [] "person" "f.jpg").1)
   ≤ 20)%nat.
Proof.
  apply (daily_images_bounded
           (_track_person (init plain_config) 0 "sala" "sofia") _
           (seconds 10) "sala" "sofia" [] "person" 0.9%Q "f.jpg" None).
  - vm_compute. reflexivity.
  - vm_compute. lia.
Defined.

(** X9.  [cleanup_old_tracking] forgets exactly the presence stamps older
    than 600 s and keeps the others as they are; it sends nothing and
    leaves the record of the last alerts alone, so the minimum time
    between alerts still counts from the last announcement. *)
Theorem cleanup_old_tracking_lookup (m : SmartAlertManager) (now : Z)
    (key : string) :
  active_persons (cleanup_old_tracking m now) !! key
  = match active_persons m !! key with
    | Some stamp =>
        if bool_decide (seconds 600 < now - stamp) then None
        else Some stamp
    | None => None
    end
  ∧ last_alerts (cleanup_old_tracking m now) = last_alerts m
  ∧ daily_images (cleanup_old_tracking m now) = daily_images m
  ∧ config (cleanup_old_tracking m now) = config m.
Proof.
  split; [|done]. unfold cleanup_old_tracking. cbn.
  rewrite lookup_foldl_delete.
  destruct (active_persons m !! key) as [stamp|] eqn:Hk.
  - case_decide as Hin.
    + apply list_elem_of_fmap in Hin as ([k' stamp'] & Hkk & Hin).
      cbn in Hkk. subst k'.
      apply list_elem_of_filter in Hin as [Hold Hk'].
      apply elem_of_map_to_list in Hk'. cbn in Hold.
      rewrite Hk in Hk'. inversion Hk'; subst stamp'.
      unfold total_seconds_gt in Hold. apply Z.ltb_lt in Hold.
      by rewrite bool_decide_eq_true_2.
    + rewrite bool_decide_eq_false_2; [done|]. intros Hold. apply Hin.
      apply list_elem_of_fmap. exists (key, stamp). split; [done|].
      apply list_elem_of_filter. split; [|by apply elem_of_map_to_list].
      cbn. unfold total_seconds_gt. by apply Z.ltb_lt.
  - case_decide; done.
Qed.

End SmartAlertExtras.

(** ** The behavioural analyzer, beyond the claims *)

Section BuiltPatterns.
Import Clock Behavioral.

Lemma add_person_patterns_made td cam hr dow h d
    (pd : list (string * list Occurrence)) :
  int_of_string hr = Some h →
  int_of_string dow = Some d →
  ∀ acc, ∃ acc',
    add_person_patterns td cam hr dow pd acc = Some acc'
    ∧ (∀ k p, acc' !! k = Some p →
         acc !! k = Some p
         ∨ ∃ pid occs,
             (pid, occs) ∈ pd
             ∧ (2 ≤ length occs)%nat
             ∧ make_pattern td cam hr dow pid occs = Some (k, p))
    ∧ (∀ k, is_Some (acc !! k) → is_Some (acc' !! k))
    ∧ (∀ pid occs, (pid, occs) ∈ pd → (2 ≤ length occs)%nat →
         is_Some (acc' !! pattern_key pid cam hr dow)).
Proof.
  intros Hh Hd. induction pd as [|[pid occs] pd IH]; intros acc.
  - exists acc. split; [done|]. split; [by left|]. split; [done|].
    intros pid occs Hin. by apply elem_of_nil in Hin.
  - cbn [add_person_patterns].
    destruct (length occs <? 2)%nat eqn:E.
    + apply Nat.ltb_lt in E.
      destruct (IH acc) as (acc' & Hrun & Hprov & Hkeep & Hall).
      exists acc'. split; [done|]. split; [|split; [done|]].
      * intros k p Hk.
        destruct (Hprov k p Hk) as [Hold|(pid' & occs' & Hin & Hrest)];
          [by left|].
        right. exists pid', occs'. split; [|done].
        by apply list_elem_of_further.
      * intros pid' occs' Hin Hlen.
        apply elem_of_cons in Hin as [Heq|Hin]; [|by apply Hall with occs'].
        inversion Heq; subst. lia.
    + apply Nat.ltb_ge in E.
      assert (Hmade : make_pattern td cam hr dow pid occs
                      = Some (pattern_key pid cam hr dow,
                              {| bp_person_id :=
                                   if decide (pid ≠ "unknown"%string)
                                   then Some pid else None;
                                 bp_camera := cam;
                                 hour_of_day := h;
                                 day_of_week := d;
                                 avg_duration_minutes := avg_duration_of occs;
                                 frequency_score :=
                                   frequency_score_of (length occs) td;
                                 typical_positions :=
                                   occ_position <$> take 10 occs |}))
        by (unfold make_pattern; by rewrite Hh, Hd).
      rewrite Hmade. cbn [mbind option_bind].
      match goal with
      | |- context [add_person_patterns _ _ _ _ _ (<[?k0 := ?p0]> acc)] =>
          destruct (IH (<[k0 := p0]> acc))
            as (acc' & Hrun & Hprov & Hkeep & Hall)
      end.
      exists acc'. split; [done|]. split; [|split].
      * intros k p Hk.
        destruct (Hprov k p Hk) as [Hold|(pid' & occs' & Hin & Hrest)].
        -- apply lookup_insert_Some in Hold as [[<- <-]|[_ Hold]];
             [|by left].
           right. exists pid, occs. split; [apply list_elem_of_here|done].
        -- right. exists pid', occs'. split; [|done].
           by apply list_elem_of_further.
      * intros k Hk. apply Hkeep.
        destruct (decide (pattern_key pid cam hr dow = k)) as [<-|Hne].
        -- rewrite lookup_insert_eq. by eexists.
        -- by rewrite lookup_insert_ne.
      * intros pid' occs' Hin Hlen.
        apply elem_of_cons in Hin as [Heq|Hin]; [|by apply Hall with occs'].
        inversion Heq; subst. apply Hkeep. rewrite lookup_insert_eq.
        by eexists.
Qed.

Lemma add_group_patterns_made td
    (g : list (string * list (string * list Occurrence))) :
  (∀ key, key ∈ g.*1 →
     ∃ cam hr dow h d, rsplit2 "_" key = Some (cam, hr, dow)
                       ∧ int_of_string hr = Some h
                       ∧ int_of_string dow = Some d) →
  ∀ acc, ∃ acc',
    add_group_patterns td g acc = Some acc'
    ∧ (∀ k p, acc' !! k = Some p →
         acc !! k = Some p
         ∨ ∃ key pd pid occs cam hr dow,
             (key, pd) ∈ g
             ∧ (pid, occs) ∈ pd
             ∧ rsplit2 "_" key = Some (cam, hr, dow)
             ∧ (2 ≤ length occs)%nat
             ∧ make_pattern td cam hr dow pid occs = Some (k, p))
    ∧ (∀ k, is_Some (acc !! k) → is_Some (acc' !! k))
    ∧ (∀ key pd pid occs cam hr dow,
         (key, pd) ∈ g → (pid, occs) ∈ pd →
         rsplit2 "_" key = Some (cam, hr, dow) →
         (2 ≤ length occs)%nat →
         is_Some (acc' !! pattern_key pid cam hr dow)).
Proof.
  induction g as [|[key pd] g IH]; intros Hkeys acc.
  - exists acc. split; [done|]. split; [by left|]. split; [done|].
    intros key pd pid occs cam hr dow Hin. by apply elem_of_nil in Hin.
  - cbn [add_group_patterns].
    destruct (Hkeys key) as (cam & hr & dow & h & d & Hsplit & Hh & Hd);
      [cbn; apply list_elem_of_here|].
    rewrite Hsplit. cbn [mbind option_bind].
    destruct (add_person_patterns_made td cam hr dow h d pd Hh Hd acc)
      as (acc1 & Hrun1 & Hprov1 & Hkeep1 & Hall1).
    rewrite Hrun1. cbn [mbind option_bind].
    destruct (IH (λ key' Hin, Hkeys key' (list_elem_of_further _ _ _ Hin))
                acc1) as (acc' & Hrun & Hprov & Hkeep & Hall).
    exists acc'. split; [done|]. split; [|split].
    + intros k p Hk.
      destruct (Hprov k p Hk)
        as [Hold|(key' & pd' & pid & occs & cam' & hr' & dow' & Hin
                  & Hrest)].
      * destruct (Hprov1 k p Hold) as [?|(pid & occs & Hin & Hrest)];
          [by left|].
        right. exists key, pd, pid, occs, cam, hr, dow.
        split; [apply list_elem_of_here|]. by split.
      * right. exists key', pd', pid, occs, cam', hr', dow'.
        split; [by apply list_elem_of_further|done].
    + intros k Hk. by apply Hkeep, Hkeep1.
    + intros key' pd' pid occs cam' hr' dow' Hin Hpid Hsplit' Hlen.
      apply elem_of_cons in Hin as [Heq|Hin].
      * inversion Heq; subst key' pd'.
        rewrite Hsplit in Hsplit'. inversion Hsplit'; subst.
        apply Hkeep. by apply Hall1 with occs.
      * by apply (Hall key' pd' pid occs).
Qed.

Lemma alookup_Some_elem {V : Type} (k : string) (v : V)
    (d : list (string * V)) :
  alookup k d = Some v → (k, v) ∈ d.
Proof.
  induction d as [|[k0 v0] d IH]; cbn; [done|].
  destruct (decide (k0 = k)) as [->|Hne].
  - intros [= ->]. apply list_elem_of_here.
  - intros Hk. by apply list_elem_of_further, IH.
Qed.

Lemma good_group_keys (window : list MovementEvent) (key : string) :
  key ∈ (group_rows (row_of <$> window)).*1 →
  ∃ e, e ∈ window
       ∧ key = group_key (row_of e)
       ∧ rsplit2 "_" key
         = Some (camera e, pretty (hour (timestamp e)),
                 pretty (weekday (timestamp e)))
       ∧ int_of_string (pretty (hour (timestamp e)))
         = Some (hour (timestamp e))
       ∧ int_of_string (pretty (weekday (timestamp e)))
         = Some (weekday (timestamp e)).
Proof.
  intros Hin. apply group_rows_keys in Hin as (r & Hr & ->).
  apply list_elem_of_fmap in Hr as (e & -> & He).
  exists e. split; [done|]. split; [done|].
  split; [apply rsplit2_group_key|]. split.
  - apply (pretty_small _ 24); [lia|apply hour_range].
  - apply (pretty_small _ 7); [lia|apply weekday_range].
Qed.

(** What a baseline build stores: each pattern is the one made from a
    group of at least two rows of the window, and every such group has a
    pattern under the key of its events. *)
Lemma compute_patterns_made (window : list MovementEvent) :
  ∃ m, compute_patterns window = Some m
       ∧ (∀ k p, m !! k = Some p →
            ∃ e pid,
              e ∈ window
              ∧ (2 ≤ length (occurrences_in (row_of <$> window)
                               (group_key (row_of e)) pid))%nat
              ∧ make_pattern (total_days_of (row_of <$> window))
                  (camera e) (pretty (hour (timestamp e)))
                  (pretty (weekday (timestamp e))) pid
                  (occurrences_in (row_of <$> window)
                     (group_key (row_of e)) pid)
                = Some (k, p))
       ∧ (∀ e, e ∈ window →
            (2 ≤ length (occurrences_in (row_of <$> window)
                           (group_key (row_of e))
                           (row_person_id (row_of e))))%nat →
            is_Some (m !! event_key e)).
Proof.
  unfold compute_patterns. cbv zeta.
  destruct (add_group_patterns_made (total_days_of (row_of <$> window))
              (group_rows (row_of <$> window)))
    with (acc := (∅ : gmap string BehavioralPattern))
    as (m & Hrun & Hprov & _ & Hall).
  { intros key Hin.
    destruct (good_group_keys window key Hin)
      as (e & _ & _ & Hsplit & Hh & Hd).
    by eexists _, _, _, _, _. }
  exists m. split; [done|]. split.
  - intros k p Hk.
    destruct (Hprov k p Hk)
      as [Hold|(key & pd & pid & occs & cam & hr & dow & Hkey & Hpid
                & Hsplit & Hlen & Hmade)].
    { by rewrite lookup_empty in Hold. }
    pose proof (group_rows_entries _ _ _ _ _ Hkey Hpid) as ->.
    destruct (good_group_keys window key) as (e & He & -> & Hsplit' & _).
    { apply list_elem_of_fmap. by exists (key, pd). }
    rewrite Hsplit' in Hsplit. inversion Hsplit; subst.
    by exists e, pid.
  - intros e He Hlen.
    pose proof (glookup_group_rows (row_of <$> window)
                  (group_key (row_of e)) (row_person_id (row_of e)))
      as Hlook.
    unfold glookup in Hlook.
    destruct (alookup (group_key (row_of e)) (group_rows (row_of <$> window)))
      as [pd|] eqn:Hpd; cbn [mbind option_bind from_option] in Hlook;
      [|rewrite <- Hlook in Hlen; cbn in Hlen; lia].
    destruct (alookup (row_person_id (row_of e)) pd) as [occs|] eqn:Hoccs;
      cbn [from_option] in Hlook;
      [|rewrite <- Hlook in Hlen; cbn in Hlen; lia].
    unfold Datatypes.id in Hlook. subst occs.
    unfold event_key.
    apply (Hall (group_key (row_of e)) pd (row_person_id (row_of e))
             (occurrences_in (row_of <$> window) (group_key (row_of e))
                (row_person_id (row_of e)))
             (camera e) (pretty (hour (timestamp e)))
             (pretty (weekday (timestamp e)))).
    + by apply alookup_Some_elem.
    + by apply alookup_Some_elem.
    + apply rsplit2_group_key.
    + done.
Qed.

End BuiltPatterns.

Section PatternShape.
Import Clock Behavioral.

Lemma group_key_inj (e e' : MovementEvent) :
  group_key (row_of e') = group_key (row_of e)
  ↔ camera e' = camera e
    ∧ hour (timestamp e') = hour (timestamp e)
    ∧ weekday (timestamp e') = weekday (timestamp e).
Proof.
  split.
  - intros Heq. apply (f_equal (rsplit2 "_")) in Heq.
    rewrite !rsplit2_group_key in Heq. inversion Heq as [[Hc Hh Hd]].
    split; [done|].
    apply (f_equal int_of_string) in Hh, Hd.
    destruct (pretty_small (hour (timestamp e)) 24) as [_ H1];
      [lia|apply hour_range|].
    destruct (pretty_small (hour (timestamp e')) 24) as [_ H2];
      [lia|apply hour_range|].
    destruct (pretty_small (weekday (timestamp e)) 7) as [_ H3];
      [lia|apply weekday_range|].
    destruct (pretty_small (weekday (timestamp e')) 7) as [_ H4];
      [lia|apply weekday_range|].
    rewrite H1, H2 in Hh. rewrite H3, H4 in Hd.
    by inversion Hh; inversion Hd.
  - intros (Hc & Hh & Hd). unfold group_key. cbn. by rewrite Hc, Hh, Hd.
Qed.

(** The occurrences of a group are the events of its bucket. *)
Lemma occurrences_in_bucket (window : list MovementEvent)
    (e : MovementEvent) (pid : string) :
  occurrences_in (row_of <$> window) (group_key (row_of e)) pid
  = (λ e', {| occ_timestamp := timestamp e';
              occ_position := position e' |})
      <$> bucket_of window (camera e) (hour (timestamp e))
            (weekday (timestamp e)) pid.
Proof.
  unfold occurrences_in, bucket_of.
  induction window as [|e' window IH]; [done|].
  rewrite fmap_cons, !filter_cons.
  destruct (decide (group_key (row_of e') = group_key (row_of e)
                    ∧ row_person_id (row_of e') = pid)) as [[Hk Hp]|Hn].
  - rewrite decide_True.
    + rewrite !fmap_cons, IH. f_equal. unfold occurrence_of. cbn.
      by destruct (position e').
    + apply group_key_inj in Hk as (? & ? & ?). done.
  - rewrite decide_False; [done|]. intros (Hc & Hh & Hd & Hp).
    apply Hn. split; [|done]. by apply group_key_inj.
Qed.

(** X10.  Every pattern stored by a baseline build carries an hour from 0
    to 23 and a weekday from 0 to 6, stands for a bucket that holds at
    least two events of the window, and keeps as typical positions the
    positions of the first ten events of that bucket, in log order (so
    between two and ten of them).  Its subject is absent exactly for the
    label "unknown", and its key is the one [detect_anomaly] computes for
    the events of the bucket. *)
Theorem built_patterns_shape (window : list MovementEvent)
    (m : gmap string BehavioralPattern) (k : string)
    (p : BehavioralPattern) :
  compute_patterns window = Some m →
  m !! k = Some p →
  ∃ pid,
    let bucket := bucket_of window (bp_camera p) (hour_of_day p)
                    (day_of_week p) pid in
    0 ≤ hour_of_day p < 24
    ∧ 0 ≤ day_of_week p < 7
    ∧ (2 ≤ length bucket)%nat
    ∧ typical_positions p = position <$> take 10 bucket
    ∧ (2 ≤ length (typical_positions p) ≤ 10)%nat
    ∧ bp_person_id p = (if decide (pid ≠ "unknown"%string) then Some pid
                        else None)
    ∧ k = pattern_key pid (bp_camera p) (pretty (hour_of_day p))
            (pretty (day_of_week p)).
Proof.
  intros Hrun Hk.
  destruct (compute_patterns_made window) as (m' & Hrun' & Hprov & _).
  rewrite Hrun in Hrun'. inversion Hrun'; subst m'.
  destruct (Hprov k p Hk) as (e & pid & He & Hlen & Hmade).
  exists pid. unfold make_pattern in Hmade.
  destruct (pretty_small (hour (timestamp e)) 24) as [_ Hh];
    [lia|apply hour_range|].
  destruct (pretty_small (weekday (timestamp e)) 7) as [_ Hd];
    [lia|apply weekday_range|].
  rewrite Hh, Hd in Hmade. cbn [mbind option_bind] in Hmade.
  inversion Hmade as [[Hkey Hp]]. clear Hmade. cbn.
  rewrite occurrences_in_bucket in Hlen |- *.
  rewrite length_fmap in Hlen.
  split; [apply hour_range|]. split; [apply weekday_range|].
  split; [done|].
  assert (Hpos : occ_position
                   <$> take 10
                         ((λ e', {| occ_timestamp := timestamp e';
                                    occ_position := position e' |})
                            <$> bucket_of window (camera e)
                                  (hour (timestamp e))
                                  (weekday (timestamp e)) pid)
                 = position
                     <$> take 10
                           (bucket_of window (camera e) (hour (timestamp e))
                              (weekday (timestamp e)) pid)).
  { rewrite <- fmap_take, <- list_fmap_compose. done. }
  rewrite Hpos. split; [done|]. split; [|done].
  rewrite length_fmap, length_take. lia.
Qed.

Lemma built_patterns_shape_witness :
  ∃ pid,
    typical_positions hall_pattern_built
    = position <$> take 10 (bucket_of two_visits "hall" 9 4 pid).
Proof.
  destruct (built_patterns_shape two_visits
              {[ "A_hall_9_4" := hall_pattern_built ]}
              "A_hall_9_4" hall_pattern_built)
    as (pid & _ & _ & _ & Hpos & _).
  - vm_compute. reflexivity.
  - apply lookup_singleton_eq.
  - by exists pid.
Defined.

End PatternShape.

Section AverageDuration.
Import Clock Behavioral.





End AverageDuration.



Section KnownBuckets.
Import Clock Behavioral.

Lemma event_key_same_bucket (e e0 : MovementEvent) :
  camera e0 = camera e →
  hour (timestamp e0) = hour (timestamp e) →
  weekday (timestamp e0) = weekday (timestamp e) →
  person_or_unknown (person_id e0) = person_or_unknown (person_id e) →
  event_key e0 = event_key e.
Proof. intros Hc Hh Hd Hp. unfold event_key. by rewrite Hc, Hh, Hd, Hp. Qed.

(** X12.  After a baseline build, an event whose bucket (camera, hour,
    weekday, subject label) holds at least two events of the analysed
    window always finds a pattern: [detect_anomaly] reports nothing or an
    unusual position, never an unknown person or an unusual time and
    location. *)
Theorem known_bucket_only_position_anomaly (a a' : BehavioralAnalyzer)
    (now : Z) (days_arg : option Z) (s : option Summary)
    (e : MovementEvent) :
  build_baseline a now days_arg = Some (a', s) →
  (2 ≤ length (bucket_of (window_of (events a) now days_arg) (camera e)
                 (hour (timestamp e)) (weekday (timestamp e))
                 (person_or_unknown (person_id e))))%nat →
  detect_anomaly a' e = None
  ∨ ∃ an, detect_anomaly a' e = Some an
          ∧ type an = unusual_position
          ∧ severity an = low.
Proof.
  intros Hbuild Hlen.
  set (window := window_of (events a) now days_arg) in *.
  destruct (bucket_of window (camera e) (hour (timestamp e))
              (weekday (timestamp e)) (person_or_unknown (person_id e)))
    as [|e0 rest] eqn:Hb; [cbn in Hlen; lia|].
  assert (He0 : e0 ∈ bucket_of window (camera e) (hour (timestamp e))
                  (weekday (timestamp e)) (person_or_unknown (person_id e)))
    by (rewrite Hb; apply list_elem_of_here).
  apply list_elem_of_filter in He0 as [(Hc & Hh & Hd & Hp) He0].
  destruct (compute_patterns_made window) as (m & Hrun & _ & Hall).
  assert (Hkey : is_Some (m !! event_key e)).
  { rewrite <- (event_key_same_bucket e e0 Hc Hh Hd Hp).
    apply Hall; [done|].
    rewrite occurrences_in_bucket, length_fmap. cbn [row_of row_person_id].
    by rewrite Hc, Hh, Hd, Hp, Hb. }
  assert (Hpat : patterns a' = m).
  { unfold build_baseline in Hbuild. fold window in Hbuild.
    destruct (events a); [subst window; by destruct days_arg as [[]|]|].
    destruct window as [|w0 ws]; [by apply elem_of_nil in He0|].
    rewrite Hrun in Hbuild. cbn in Hbuild. by inversion Hbuild. }
  destruct Hkey as [pattern Hpattern].
  unfold detect_anomaly. rewrite Hpat.
  rewrite decide_False by (intros Hempty; by rewrite Hempty in Hpattern).
  cbv zeta. rewrite Hpattern.
  destruct (typical_positions pattern); [by left|].
  destruct (Qlt_bool _ _); [right; by eexists|by left].
Qed.

Lemma known_bucket_only_position_anomaly_witness :
  detect_anomaly
    (init default_min_baseline_days two_visits
       (Some {[ "A_hall_9_4" := hall_pattern_built ]}))
    (sighting (some_day + 7) 9 30 (Some "A") "hall" 0.5 0.5)
  = None
  ∨ ∃ an,
      detect_anomaly
        (init default_min_baseline_days two_visits
           (Some {[ "A_hall_9_4" := hall_pattern_built ]}))
        (sighting (some_day + 7) 9 30 (Some "A") "hall" 0.5 0.5)
      = Some an
      ∧ type an = unusual_position ∧ severity an = low.
Proof.
  apply (known_bucket_only_position_anomaly
           (init default_min_baseline_days two_visits None) _
           (at_day some_day 12 0 0) None
           (Some {| total_events_analyzed := 2;
                    patterns_created := 1;
                    date_range_start := at_day some_day 9 0 0;
                    date_range_end := at_day some_day 9 10 0 |})).
  - vm_compute. reflexivity.
  - vm_compute. lia.
Defined.

Lemma append_assoc (a b c : string) : (a +:+ b) +:+ c = a +:+ (b +:+ c).
Proof.
  induction a as [|x a IH]; [done|]. by rewrite !append_cons, IH.
Qed.

(** X13.  The pattern key is not injective: a subject whose label ends
    in "_x" at camera "c" and the subject without that ending at camera
    "x_c" get the same key, so at the same hour and weekday
    [detect_anomaly] looks both events up under one and the same
    pattern. *)
Theorem pattern_keys_collide (a : BehavioralAnalyzer) (e1 e2 : MovementEvent)
    (p x c : string) :
  p ≠ ""%string →
  person_id e1 = Some (p +:+ "_" +:+ x) → camera e1 = c →
  person_id e2 = Some p → camera e2 = x +:+ "_" +:+ c →
  timestamp e1 = timestamp e2 →
  event_key e1 = event_key e2
  ∧ patterns a !! event_key e1 = patterns a !! event_key e2.
Proof.
  intros Hp Hp1 Hc1 Hp2 Hc2 Hts.
  assert (event_key e1 = event_key e2) as Hkey; [|by rewrite Hkey].
  unfold event_key, pattern_key, person_or_unknown.
  rewrite Hp1, Hp2, Hc1, Hc2, Hts.
  rewrite decide_False by (by destruct p).
  rewrite decide_False by done.
  by rewrite !append_assoc.
Qed.

Lemma pattern_keys_collide_witness :
  event_key (sighting some_day 9 0 (Some "a_b") "c" 0.5 0.5)
  = event_key (sighting some_day 9 0 (Some "a") "b_c" 0.5 0.5).
Proof.
  apply (pattern_keys_collide hall_analyzer
           (sighting some_day 9 0 (Some "a_b") "c" 0.5 0.5)
           (sighting some_day 9 0 (Some "a") "b_c" 0.5 0.5)
           "a" "b" "c"); done.
Defined.

(** X14.  The callers record every movement without a subject.  On a
    baseline built from such a log, an event without a subject is never
    classified [unknown_person]: as soon as the map holds any pattern,
    that pattern belongs to the absent subject too. *)
Theorem anonymous_events_never_unknown_person (window : list MovementEvent)
    (a : BehavioralAnalyzer) (e : MovementEvent) (an : Anomaly) :
  compute_patterns window = Some (patterns a) →
  (∀ e', e' ∈ window → person_id e' = None) →
  person_id e = None →
  detect_anomaly a e = Some an →
  type an ≠ unknown_person.
Proof.
  intros Hrun Hanon He Hdet Htype.
  destruct (compute_patterns_made window) as (m & Hrun' & Hprov & _).
  rewrite Hrun in Hrun'. inversion Hrun' as [Hm].
  unfold detect_anomaly in Hdet.
  destruct (decide (patterns a = ∅)) as [|Hne]; [done|].
  cbv zeta in Hdet.
  destruct (patterns a !! event_key e) as [pattern|] eqn:Hkey.
  { destruct (typical_positions pattern); [done|].
    destruct (Qlt_bool _ _); [|done].
    inversion Hdet; subst an. done. }
  destruct (person_patterns_of (patterns a) e) as [|p0 l] eqn:Hpp.
  - apply map_choose in Hne as (k & p & Hk).
    apply (proj1 (person_patterns_nil (patterns a) e) Hpp k p Hk).
    rewrite He. rewrite Hm in Hk.
    destruct (Hprov k p Hk) as (e0 & pid & _ & Hlen & Hmade).
    assert (Hpid : pid = "unknown"%string).
    { rewrite occurrences_in_bucket, length_fmap in Hlen.
      destruct (bucket_of window _ _ _ pid) as [|e1 rest] eqn:Hb;
        [cbn in Hlen; lia|].
      assert (He1 : e1 ∈ bucket_of window (camera e0) (hour (timestamp e0))
                      (weekday (timestamp e0)) pid)
        by (rewrite Hb; apply list_elem_of_here).
      apply list_elem_of_filter in He1 as [(_ & _ & _ & Hp1) He1].
      by rewrite (Hanon e1 He1) in Hp1. }
    unfold make_pattern in Hmade.
    destruct (pretty_small (hour (timestamp e0)) 24) as [_ Hh];
      [lia|apply hour_range|].
    destruct (pretty_small (weekday (timestamp e0)) 7) as [_ Hd];
      [lia|apply weekday_range|].
    rewrite Hh, Hd in Hmade. cbn [mbind option_bind] in Hmade.
    inversion Hmade; subst.
    cbn [bp_person_id].
    by rewrite decide_False by (intros H; by apply H).
  - inversion Hdet; subst an. done.
Qed.

Lemma anonymous_events_never_unknown_person_witness :
  type {| type := unusual_time_location;
          severity := medium;
          message := "unknown in door at unusual time";
          event := sighting some_day 15 0 None "door" 0.5 0.5;
          typical_locations := Some {["hall"]};
          distance_from_typical_sq := None |}
  ≠ unknown_person.
Proof.
  apply (anonymous_events_never_unknown_person anonymous_visits
           anonymous_analyzer
           (sighting some_day 15 0 None "door" 0.5 0.5)).
  - vm_compute. reflexivity.
  - intros e' He'. unfold anonymous_visits in He'.
    repeat (apply elem_of_cons in He' as [->|He']; [done|]).
    by apply elem_of_nil in He'.
  - done.
  - vm_compute. reflexivity.
Defined.

End KnownBuckets.

Section ChronologicalRecording.
Import Clock Behavioral.

Lemma record_movement_events a now cam bbox conf pid ts a' ev :
  record_movement a now cam bbox conf pid ts = Some (a', ev) →
  events a' = events a ++ [ev]
  ∧ timestamp ev = default now ts
  ∧ camera ev = cam
  ∧ person_id ev = pid
  ∧ patterns a' = patterns a
  ∧ min_baseline_days a' = min_baseline_days a.
Proof.
  unfold record_movement. cbv zeta.
  destruct (bbox !! 0%nat) as [x1|]; [|done].
  destruct (bbox !! 2%nat) as [x2|]; [|done].
  destruct (bbox !! 1%nat) as [y1|]; [|done].
  destruct (bbox !! 3%nat) as [y2|]; [|done].
  cbn. intros Heq. inversion Heq; subst. done.
Qed.

Lemma record_all_stamps (cs : list RecordCall) :
  ∀ a a', record_all a cs = Some a' →
    timestamp <$> events a' = (timestamp <$> events a) ++ (rc_stamp <$> cs)
    ∧ min_baseline_days a' = min_baseline_days a
    ∧ patterns a' = patterns a.
Proof.
  induction cs as [|c cs IH]; intros a a' Hrun.
  - cbn in Hrun. inversion Hrun; subst. by rewrite app_nil_r.
  - cbn [record_all] in Hrun.
    destruct (record_movement a (rc_now c) (rc_camera c) (rc_bbox c)
                (rc_confidence c) (rc_person_id c) (rc_timestamp c))
      as [[a1 ev]|] eqn:E1; [|done].
    cbn in Hrun.
    apply record_movement_events in E1 as (Hev & Hts & _ & _ & Hpat & Hmin).
    destruct (IH a1 a' Hrun) as (Hstamps & Hmin' & Hpat').
    rewrite Hstamps, Hev, fmap_app, Hmin', Hmin, Hpat', Hpat. cbn.
    rewrite Hts, <- app_assoc. done.
Qed.

Lemma sorted_between (l : list Z) :
  Sorted Z.le l →
  ∀ x y z, head l = Some x → last l = Some y → z ∈ l → x ≤ z ≤ y.
Proof.
  intros Hs. apply Sorted_StronglySorted in Hs; [|intros ???; lia].
  induction Hs as [|a l Hs IH Hall]; intros x y z Hx Hy Hz; [done|].
  cbn in Hx. inversion Hx; subst a.
  rewrite Forall_forall in Hall.
  destruct l as [|b l'].
  - cbn in Hy. inversion Hy; subst y.
    apply list_elem_of_singleton in Hz. lia.
  - rewrite last_cons_cons in Hy.
    apply elem_of_cons in Hz as [->|Hz].
    + split; [lia|].
      assert (Hyin : y ∈ b :: l').
      { apply last_Some in Hy as [l'' ->]. apply elem_of_app. right.
        apply list_elem_of_here. }
      by apply Hall.
    + split; [by apply Hall|].
      by apply (IH b y z).
Qed.

(** X15.  When the timestamps of the log are in non-decreasing order, as
    they are when every event is recorded as it happens, then after any
    sequence of [record_movement] calls that keeps that order
    [has_sufficient_baseline] does tell whether the oldest and the newest
    event are at least [min_baseline_days] days apart. *)
Theorem has_sufficient_baseline_after_ordered_recording
    (a a' : BehavioralAnalyzer) (cs : list RecordCall) :
  record_all a cs = Some a' →
  Sorted Z.le ((timestamp <$> events a) ++ (rc_stamp <$> cs)) →
  events a' ≠ [] →
  has_sufficient_baseline a'
  = bool_decide (min_baseline_days a
                 ≤ span_days (timestamp <$> events a')).
Proof.
  intros Hrun Hsorted Hne.
  destruct (record_all_stamps cs a a' Hrun) as (Hstamps & Hmin & _).
  rewrite <- Hstamps in Hsorted. rewrite <- Hmin.
  destruct (events a') as [|e0 es] eqn:Hev; [done|].
  destruct (last (e0 :: es)) as [e_last|] eqn:Hlast;
    [|by apply last_None in Hlast].
  rewrite <- Hev in *.
  apply (has_sufficient_baseline_chronological a' e0 e_last).
  - by rewrite Hev.
  - done.
  - intros e He.
    apply (sorted_between _ Hsorted (timestamp e0) (timestamp e_last)).
    + by rewrite Hev.
    + by rewrite fmap_last, Hlast.
    + apply list_elem_of_fmap. by exists e.
Qed.

Lemma has_sufficient_baseline_after_ordered_recording_witness :
  has_sufficient_baseline ordered_analyzer
  = bool_decide (7 ≤ span_days (timestamp <$> events ordered_analyzer)).
Proof.
  apply (has_sufficient_baseline_after_ordered_recording
           (init default_min_baseline_days [] None) ordered_analyzer
           ordered_calls).
  - vm_compute. reflexivity.
  - cbn. repeat constructor. vm_compute. discriminate.
  - discriminate.
Defined.

End ChronologicalRecording.

(** ** The behavioural step of the frame pipeline *)

Section PipelineStep.
Import Clock Behavioral Pipeline.

Lemma detect_anomaly_patterns (a1 a2 : BehavioralAnalyzer)
    (e : MovementEvent) :
  patterns a1 = patterns a2 → detect_anomaly a1 e = detect_anomaly a2 e.
Proof. intros Hp. unfold detect_anomaly. by rewrite Hp. Qed.

Lemma last_verdict_patterns (a1 a2 : BehavioralAnalyzer)
    (evs : list MovementEvent) :
  patterns a1 = patterns a2 →
  ∀ anomaly, last_verdict a1 evs anomaly = last_verdict a2 evs anomaly.
Proof.
  intros Hp. unfold last_verdict.
  induction evs as [|ev evs IH]; intros anomaly; [done|]. cbn.
  by rewrite (detect_anomaly_patterns a1 a2 ev Hp), IH.
Qed.

Lemma record_movement_event_of a cam stamp det :
  (4 ≤ length (fd_bbox det))%nat →
  ∃ a1 ev,
    record_movement a stamp cam (fd_bbox det) (fd_confidence det) None
      (Some stamp) = Some (a1, ev)
    ∧ event_of cam stamp det = Some ev
    ∧ events a1 = events a ++ [ev]
    ∧ patterns a1 = patterns a
    ∧ person_id ev = None ∧ timestamp ev = stamp ∧ camera ev = cam.
Proof.
  intros Hlen. unfold record_movement, event_of.
  destruct (fd_bbox det) as [|x1 [|y1 [|x2 [|y2 rest]]]];
    cbn in Hlen; try lia.
  cbn. eexists _, _. split; [reflexivity|]. by cbn.
Qed.

(** X16.  The behavioural step of [process_frame], on a frame whose
    person detections all carry a full bounding box: it appends one event
    per person detection, in order, each without a subject and stamped
    with the frame's timestamp and camera; it never changes the pattern
    map; and the anomaly it leaves in the results is the verdict of the
    last person detection that got one (the incoming value if none did,
    in particular whenever the pattern map is empty). *)
Theorem behavioral_step_spec (dets : list FrameDetection) :
  ∀ (a : BehavioralAnalyzer) (cam : string) (stamp : Z)
    (anomaly : option Anomaly),
    Forall (λ det, (4 ≤ length (fd_bbox det))%nat) (persons dets) →
    ∃ evs,
      Forall2 (λ det ev, event_of cam stamp det = Some ev) (persons dets) evs
      ∧ Forall (λ ev, person_id ev = None ∧ timestamp ev = stamp
                      ∧ camera ev = cam) evs
      ∧ events (behavioral_step a cam stamp dets anomaly).1
        = events a ++ evs
      ∧ patterns (behavioral_step a cam stamp dets anomaly).1 = patterns a
      ∧ (behavioral_step a cam stamp dets anomaly).2
        = last_verdict a evs anomaly
      ∧ (patterns a = ∅ →
         (behavioral_step a cam stamp dets anomaly).2 = anomaly).
Proof.
  induction dets as [|det dets IH]; intros a cam stamp anomaly Hwf.
  - exists []. cbn. rewrite app_nil_r. by repeat split.
  - unfold persons in Hwf |- *. rewrite filter_cons in Hwf |- *.
    cbn [behavioral_step].
    destruct (decide (fd_class det = "person"%string)) as [Hp|Hp].
    + apply Forall_cons in Hwf as [Hlen Hwf].
      destruct (record_movement_event_of a cam stamp det Hlen)
        as (a1 & ev & Hrec & Hev & Hevents & Hpat & Hid & Hts & Hcam).
      rewrite Hrec.
      assert (Hstep : ∀ anomaly',
                ∃ evs,
                  Forall2 (λ det ev, event_of cam stamp det = Some ev)
                    (persons dets) evs
                  ∧ Forall (λ ev, person_id ev = None ∧ timestamp ev = stamp
                                  ∧ camera ev = cam) evs
                  ∧ events (behavioral_step a1 cam stamp dets anomaly').1
                    = events a ++ ev :: evs
                  ∧ patterns (behavioral_step a1 cam stamp dets anomaly').1
                    = patterns a
                  ∧ (behavioral_step a1 cam stamp dets anomaly').2
                    = last_verdict a evs anomaly'
                  ∧ (patterns a = ∅ →
                     (behavioral_step a1 cam stamp dets anomaly').2
                     = anomaly')).
      { intros anomaly'.
        destruct (IH a1 cam stamp anomaly' Hwf)
          as (evs & Hall2 & Hall & Hevs & Hpats & Hres & Hcold).
        exists evs. split; [done|]. split; [done|].
        split; [by rewrite Hevs, Hevents, <- app_assoc|].
        split; [by rewrite Hpats|].
        split; [by rewrite Hres, (last_verdict_patterns a1 a evs Hpat)|].
        intros Hempty. apply Hcold. by rewrite Hpat. }
      rewrite (detect_anomaly_patterns a1 a ev Hpat).
      destruct (detect_anomaly a ev) as [verdict|] eqn:Hdet.
      * destruct (Hstep (Some verdict))
          as (evs & Hall2 & Hall & Hevs & Hpats & Hres & Hcold).
        exists (ev :: evs). split; [by constructor|].
        split; [by constructor|]. split; [done|]. split; [done|].
        split; [unfold last_verdict; cbn; by rewrite Hdet|].
        intros Hempty. unfold detect_anomaly in Hdet.
        by rewrite decide_True in Hdet.
      * destruct (Hstep anomaly)
          as (evs & Hall2 & Hall & Hevs & Hpats & Hres & Hcold).
        exists (ev :: evs). split; [by constructor|].
        split; [by constructor|]. split; [done|]. split; [done|].
        split; [unfold last_verdict; cbn; by rewrite Hdet|done].
    + destruct (IH a cam stamp anomaly Hwf) as (evs & Hrest).
      by exists evs.
Qed.

Lemma behavioral_step_spec_witness :
  ∃ evs,
    events (behavioral_step hall_analyzer "hall" (at_day some_day 9 0 0)
              [ {| fd_class := "dog"; fd_confidence := 0.8%Q;
                   fd_bbox := [0%Q; 0%Q; 1%Q; 1%Q] |};
                {| fd_class := "person"; fd_confidence := 0.9%Q;
                   fd_bbox := [0.4%Q; 0.4%Q; 0.6%Q; 0.6%Q] |} ] None).1
    = events hall_analyzer ++ evs
    ∧ length evs = 1%nat.
Proof.
  destruct (behavioral_step_spec
              [ {| fd_class := "dog"; fd_confidence := 0.8%Q;
                   fd_bbox := [0%Q; 0%Q; 1%Q; 1%Q] |};
                {| fd_class := "person"; fd_confidence := 0.9%Q;
                   fd_bbox := [0.4%Q; 0.4%Q; 0.6%Q; 0.6%Q] |} ]
              hall_analyzer "hall" (at_day some_day 9 0 0) None)
    as (evs & Hall2 & _ & Hevs & _).
  - repeat constructor.
  - exists evs. split; [done|].
    apply Forall2_length in Hall2. by rewrite <- Hall2.
Defined.

End PipelineStep.

Section DailySummary.
Import Clock Behavioral.

Lemma same_day (t date : Z) :
  (date - time_of_day date ≤ t ∧ t < date - time_of_day date + days 1)
  ↔ t / usec_per_day = date / usec_per_day.
Proof.
  unfold time_of_day, days.
  assert (HD : 0 < usec_per_day) by (vm_compute; reflexivity).
  pose proof (Z.div_mod date usec_per_day ltac:(lia)) as Hd.
  pose proof (Z.mod_pos_bound date usec_per_day HD) as Hdr.
  pose proof (Z.div_mod t usec_per_day ltac:(lia)) as Ht.
  pose proof (Z.mod_pos_bound t usec_per_day HD) as Htr.
  split.
  - intros [Hlo Hhi]. symmetry.
    apply (Z.div_unique t usec_per_day (date / usec_per_day)
             (t - usec_per_day * (date / usec_per_day))); lia.
  - intros Heq. rewrite Heq in Ht. lia.
Qed.

Lemma count_by_lookup `{Countable K} (l : list K) (k : K) :
  count_by l !! k
  = let n := length (filter (λ x, x = k) l) in
    if decide (n = 0%nat) then None else Some n.
Proof.
  induction l as [|x l IH]; [done|].
  cbn [count_by foldr]. fold (count_by l). rewrite filter_cons.
  destruct (decide (x = k)) as [->|Hne].
  - rewrite lookup_insert_eq, IH. cbn.
    by destruct (decide (length (filter (λ x, x = k) l) = 0%nat)) as [->|].
  - by rewrite lookup_insert_ne.
Qed.

Lemma filter_fmap_comm {A B : Type} (f : A → B) (P : B → Prop)
    `{∀ y, Decision (P y)} (l : list A) :
  filter P (f <$> l) = f <$> filter (λ x, P (f x)) l.
Proof.
  induction l as [|x l IH]; [done|].
  rewrite fmap_cons, !filter_cons. case_decide; by rewrite ?fmap_cons, IH.
Qed.

Lemma unique_spec (l : list string) :
  NoDup (unique l) ∧ ∀ x, x ∈ unique l ↔ x ∈ l.
Proof.
  induction l as [|y l [IHnd IHin]]; [split; [constructor|done]|].
  cbn. split.
  - constructor.
    + intros Hin. by apply list_elem_of_filter in Hin as [? _].
    + by apply NoDup_filter.
  - intros x. rewrite !elem_of_cons, list_elem_of_filter, IHin.
    destruct (decide (x = y)); naive_solver.
Qed.

(** X17.  [get_daily_summary] reports no activity exactly when the log
    holds no event on the calendar day asked for.  Otherwise the total is
    the number of events of that day; the camera and hour tables give, for
    each camera and hour, the number of the day's events there, and have
    no entry where there is none; the camera and subject lists hold each
    camera and subject label of the day exactly once. *)
Theorem get_daily_summary_spec (a : BehavioralAnalyzer) (now : Z)
    (date : option Z) :
  let today := events_on a (default now date) in
  match get_daily_summary a now date with
  | None => today = []
  | Some s =>
      today ≠ []
      ∧ ds_total_events s = length today
      ∧ (∀ c, ds_camera_activity s !! c
              = let n := length (filter (λ e, camera e = c) today) in
                if decide (n = 0%nat) then None else Some n)
      ∧ (∀ h, ds_hourly_activity s !! h
              = let n := length (filter (λ e, hour (timestamp e) = h)
                                   today) in
                if decide (n = 0%nat) then None else Some n)
      ∧ NoDup (ds_unique_cameras s)
      ∧ (∀ c, c ∈ ds_unique_cameras s ↔ ∃ e, e ∈ today ∧ camera e = c)
      ∧ NoDup (ds_persons_detected s)
      ∧ (∀ p, p ∈ ds_persons_detected s
              ↔ ∃ e, e ∈ today ∧ person_or_unknown (person_id e) = p)
  end.
Proof.
  cbv zeta. unfold get_daily_summary, events_on. cbv zeta.
  rewrite (list_filter_iff _
             (λ e, timestamp e / usec_per_day
                   = default now date / usec_per_day))
    by (intros e; apply same_day).
  destruct (filter _ (events a)) as [|e0 es] eqn:Hday; [done|].
  rewrite <- Hday. set (today := filter _ (events a)) in *.
  split; [by rewrite Hday|]. split; [done|].
  cbn [ds_camera_activity ds_hourly_activity ds_unique_cameras
       ds_persons_detected].
  split; [|split; [|split; [|split; [|split]]]].
  - intros c. rewrite count_by_lookup. cbv zeta.
    by rewrite (filter_fmap_comm camera (λ x, x = c)), length_fmap.
  - intros h. rewrite count_by_lookup. cbv zeta.
    by rewrite (filter_fmap_comm (λ e, hour (timestamp e))
                  (λ x, x = h)), length_fmap.
  - apply unique_spec.
  - intros c. rewrite (proj2 (unique_spec _)), list_elem_of_fmap.
    naive_solver.
  - apply unique_spec.
  - intros p. rewrite (proj2 (unique_spec _)), list_elem_of_fmap.
    naive_solver.
Qed.

End DailySummary.

(** ** The quality filter *)

Section QualityFilter.
Import Quality.

Lemma prefix_app_l (a b h : string) :
  String.prefix (a +:+ b) h = true → String.prefix a h = true.
Proof.
  revert h. induction a as [|c a IH]; intros h; [by destruct h|].
  rewrite append_cons. destruct h as [|c' h]; cbn; [done|].
  destruct (Ascii.ascii_dec c c'); [apply IH|done].
Qed.

Lemma contains_app_l (a b h : string) :
  Str.contains (a +:+ b) h = true → Str.contains a h = true.
Proof.
  induction h as [|c h IH]; cbn -[String.prefix].
  - rewrite !orb_false_r. apply prefix_app_l.
  - intros [Hp|Hc]%orb_true_iff; apply orb_true_iff.
    + left. by apply prefix_app_l with b.
    + right. by apply IH.
Qed.

Lemma prefix_tail (a h : string) (c : ascii) :
  Str.contains a h = true → Str.contains a (String c h) = true.
Proof. intros Hc. cbn -[String.prefix]. rewrite Hc. apply orb_true_r. Qed.

Lemma contains_drop (c : ascii) (a h : string) :
  Str.contains (String c a) h = true → Str.contains a h = true.
Proof.
  induction h as [|c' h IH]; cbn -[String.prefix].
  - by rewrite !orb_false_r.
  - intros [Hp|Hc]%orb_true_iff.
    + apply prefix_tail. cbn in Hp.
      destruct (Ascii.ascii_dec c c'); [|done].
      clear -Hp. revert a Hp. induction h as [|d h IH]; intros a Hp.
      * destruct a; [done|done].
      * destruct a as [|e a]; [by destruct h|].
        cbn in Hp |- *. by rewrite Hp.
    + apply orb_true_iff. right. by apply IH.
Qed.

(** X18.  The two methods of the filter agree: [get_filter_reason] gives
    the reason "unknown" exactly for the detections that
    [is_quality_detection] lets pass, and [filter_detections] keeps
    exactly those. *)
Theorem reason_unknown_iff_quality (d : QDetection) :
  (get_filter_reason d = unknown_reason ↔ is_quality_detection d = true)
  ∧ ∀ ds, d ∈ filter_detections ds
          ↔ d ∈ ds ∧ get_filter_reason d = unknown_reason.
Proof.
  assert (Hiff : get_filter_reason d = unknown_reason
                 ↔ is_quality_detection d = true).
  { unfold get_filter_reason, is_quality_detection. cbv zeta.
    destruct (Behavioral.Qlt_bool _ _); [done|].
    by destruct (first_keyword _ _). }
  split; [done|]. intros ds. unfold filter_detections.
  rewrite list_elem_of_filter, Hiff. tauto.
Qed.

(** X19.  Three keywords of the list can never be the reported reason:
    "blurry" and "blurred" contain "blur", and "too dark" contains
    "dark", which stand before them in the list. *)
Theorem shadowed_keywords_never_reported (d : QDetection) :
  get_filter_reason d ≠ low_quality_keyword "blurry"
  ∧ get_filter_reason d ≠ low_quality_keyword "blurred"
  ∧ get_filter_reason d ≠ low_quality_keyword "too dark".
Proof.
  unfold get_filter_reason. cbv zeta.
  destruct (Behavioral.Qlt_bool _ _); [done|].
  set (desc := Str.lower _).
  unfold LOW_QUALITY_KEYWORDS. cbn [first_keyword].
  destruct (Str.contains "blur" desc) eqn:Hblur; [done|].
  assert (Str.contains "blurry" desc = false) as ->.
  { destruct (Str.contains "blurry" desc) eqn:E; [|done].
    apply (contains_app_l "blur" "ry") in E. congruence. }
  assert (Str.contains "blurred" desc = false) as ->.
  { destruct (Str.contains "blurred" desc) eqn:E; [|done].
    apply (contains_app_l "blur" "red") in E. congruence. }
  destruct (Str.contains "unclear" desc); [done|].
  destruct (Str.contains "fuzzy" desc); [done|].
  destruct (Str.contains "dark" desc) eqn:Hdark; [done|].
  assert (Str.contains "too dark" desc = false) as ->.
  { destruct (Str.contains "too dark" desc) eqn:E; [|done].
    do 4 apply contains_drop in E. congruence. }
  repeat (split; [repeat case_match; congruence|]).
  repeat case_match; congruence.
Qed.

End QualityFilter.

Section QuietHoursExtras.
Import Clock SmartAlerts.







End QuietHoursExtras.
